(** * ResponsiveService: breakpoint, device and platform detection

    A shallow embedding of [src/app/shared/services/responsive.service.ts]
    (the Angular service that classifies the viewport and the client and
    mirrors the classification onto the classes of the [<html>] element),
    followed by the properties of it that the specification states.

    Conventions of the embedding.
    - The ambient browser state (viewport, colour scheme, user agent, touch
      capability, the two "is this a browser" flags) is a record [Env].
      Viewport sizes are rational numbers of CSS pixels: under zoom or a
      fractional device pixel ratio a viewport is 767.5 pixels wide.
    - [navigator.userAgent] is a [string] of 8-bit characters; the user agent
      is ASCII, and [toLowerCase] folds the letters A..Z only.
    - Media queries stay the strings the source writes.  The browser's
      evaluation of them is [window_matchMedia]; the Angular CDK
      [BreakpointObserver] (a dependency, not part of the repository) is
      [isMatched] and [observe], with its no-op matcher outside a browser.
    - [document.documentElement.classList] is a [gset string].
    - An RxJS source piped through [distinctUntilChanged] and [shareReplay(1)]
      is its latest value, stored in the service; a change notification
      reaches a subscriber only when that value changes.
    - The CDK delivers what it observed after a debounce.  [notify] is that
      delivery, with the environment the CDK observed and the environment
      that is live when the subscribers run; [dispatch] is the case where the
      two are the same, the viewport at rest when the delivery comes. *)

From Stdlib Require Import ZArith QArith Ascii Bool Lia Lqa.
From stdpp Require Import base decidable option list strings gmap sets.

Local Open Scope Z_scope.

(** ** JavaScript string primitives used by the service *)

Module JsString.

(** [c] is one of the letters A..Z. *)
Definition isUpper (c : ascii) : bool :=
  let n := N_of_ascii c in ((65 <=? n) && (n <=? 90))%N.

Definition lowerChar (c : ascii) : ascii :=
  if isUpper c then ascii_of_N (N_of_ascii c + 32) else c.

(** [s.toLowerCase()] *)
Fixpoint toLowerCase (s : string) : string :=
  match s with
  | EmptyString => EmptyString
  | String c s' => String (lowerChar c) (toLowerCase s')
  end.

(** [s.startsWith(pat)] *)
Fixpoint startsWith (s pat : string) : bool :=
  match pat, s with
  | EmptyString, _ => true
  | String _ _, EmptyString => false
  | String p pat', String c s' =>
      if decide (p = c) then startsWith s' pat' else false
  end.

(** [s.includes(pat)]: [pat] occurs somewhere in [s]. *)
Fixpoint includes (s pat : string) : bool :=
  startsWith s pat ||
  match s with
  | EmptyString => false
  | String _ s' => includes s' pat
  end.

(** [s.slice(n)]: [s] without its first [n] characters. *)
Fixpoint slice (n : nat) (s : string) : string :=
  match n, s with
  | S n', String _ s' => slice n' s'
  | _, _ => s
  end.

(** [pat] occurs in [s] up to the case of the letters of [s]. *)
Definition containsCI (s pat : string) : Prop :=
  ∃ pre mid post, s = pre +:+ mid +:+ post ∧ toLowerCase mid = pat.

End JsString.

Import JsString.

(** ** The ambient environment *)

Record Env := {
  (** [isPlatformBrowser(PLATFORM_ID)] *)
  isPlatformBrowser : bool;
  (** [Platform.isBrowser] of the CDK *)
  cdkIsBrowser : bool;
  (** viewport width and height, in CSS pixels *)
  viewportWidth : Q;
  viewportHeight : Q;
  (** the system colour scheme is dark *)
  colorSchemeDark : bool;
  (** [navigator.userAgent] *)
  userAgent : string;
  (** ['ontouchstart' in window] *)
  hasOntouchstart : bool;
  (** [navigator.maxTouchPoints] *)
  maxTouchPoints : Z
}.

(** ** Media queries

    The fragment of the media query language the service writes:
    conditions [(feature: value)] joined by [ and ], over the features
    [min-width], [max-width], [orientation] and [prefers-color-scheme]. *)

Module MediaQuery.

Inductive Feature :=
| MinWidth (px : Q)
| MaxWidth (px : Q)
| Orientation (portrait : bool)
| PrefersColorScheme (dark : bool).

(** Cuts [s] at the first occurrence of [sep]. *)
Fixpoint cut (sep s : string) : option (string * string) :=
  if startsWith s sep
  then Some (EmptyString, slice (String.length sep) s)
  else match s with
       | EmptyString => None
       | String c s' => prod_map (String c) id <$> cut sep s'
       end.

Fixpoint splitOn (fuel : nat) (sep s : string) : list string :=
  match fuel with
  | O => [s]
  | S fuel' =>
      match cut sep s with
      | None => [s]
      | Some (a, rest) => a :: splitOn fuel' sep rest
      end
  end.

(** A length: decimal digits followed by [px]. *)
Fixpoint parsePx (acc : option Z) (s : string) : option Z :=
  if decide (s = "px") then acc
  else match s with
       | EmptyString => None
       | String c s' =>
           d ← Ascii.is_nat c;
           parsePx (Some (10 * default 0 acc + Z.of_nat d)) s'
       end.

Definition parseFeature (name value : string) : option Feature :=
  if decide (name = "min-width") then
    MinWidth ∘ inject_Z <$> parsePx None value
  else if decide (name = "max-width") then
    MaxWidth ∘ inject_Z <$> parsePx None value
  else if decide (name = "orientation") then
    if decide (value = "portrait") then Some (Orientation true)
    else if decide (value = "landscape") then Some (Orientation false)
    else None
  else if decide (name = "prefers-color-scheme") then
    if decide (value = "dark") then Some (PrefersColorScheme true)
    else if decide (value = "light") then Some (PrefersColorScheme false)
    else None
  else None.

(** One condition, [(name: value)]. *)
Definition parseCondition (s : string) : option Feature :=
  match s with
  | String "(" body =>
      '(name, rest) ← cut ": " body;
      '(value, tail) ← cut ")" rest;
      if decide (tail = "") then parseFeature name value else None
  | _ => None
  end.

Definition parse (q : string) : option (list Feature) :=
  if decide (q = "") then Some []
  else if decide (q = "all") then Some []
  else mapM parseCondition (splitOn (String.length q) " and " q).

Definition holds (e : Env) (f : Feature) : bool :=
  match f with
  | MinWidth px => Qle_bool px (viewportWidth e)
  | MaxWidth px => Qle_bool (viewportWidth e) px
  | Orientation true => Qle_bool (viewportWidth e) (viewportHeight e)
  | Orientation false => negb (Qle_bool (viewportWidth e) (viewportHeight e))
  | PrefersColorScheme dark => bool_decide (colorSchemeDark e = dark)
  end.

End MediaQuery.

(** [window.matchMedia(q).matches]; a query outside the fragment matches
    nothing. *)
Definition window_matchMedia (e : Env) (q : string) : bool :=
  match MediaQuery.parse q with
  | Some fs => forallb (MediaQuery.holds e) fs
  | None => false
  end.

(** ** The CDK's BreakpointObserver

    Its [MediaMatcher] asks [window.matchMedia] in a browser and otherwise
    answers with a no-op matcher that matches only [all] and the empty
    query. *)

Record BreakpointState := {
  matches : bool;
  breakpoints : gmap string bool
}.

Module BreakpointObserver.

Definition noopMatchMedia (q : string) : bool :=
  bool_decide (q = "all") || bool_decide (q = "").

Definition matchMedia (e : Env) (q : string) : bool :=
  if cdkIsBrowser e then window_matchMedia e q else noopMatchMedia q.

(** [isMatched(query)] *)
Definition isMatched (e : Env) (q : string) : bool := matchMedia e q.

(** What [observe(queries)] reports in environment [e]. *)
Definition observe (e : Env) (qs : list string) : BreakpointState :=
  {| matches := existsb (matchMedia e) qs;
     breakpoints := list_to_map ((λ q, (q, matchMedia e q)) <$> qs) |}.

End BreakpointObserver.

(** [result.breakpoints[q]] used as a condition: an absent key is falsy. *)
Definition truthy (o : option bool) : bool := default false o.

(** ** The data model of the service *)

Inductive TailwindBreakpoint := bp_xs | bp_sm | bp_md | bp_lg | bp_xl | bp_2xl.
Inductive Platform := mobile | tablet | desktop.
Inductive Browser := chrome | firefox | safari | edge | browser_other.
Inductive OS := windows | macos | linux | ios | android | os_other.

#[global] Instance TailwindBreakpoint_eq_dec : EqDecision TailwindBreakpoint.
Proof. solve_decision. Defined.
#[global] Instance Platform_eq_dec : EqDecision Platform.
Proof. solve_decision. Defined.
#[global] Instance Browser_eq_dec : EqDecision Browser.
Proof. solve_decision. Defined.
#[global] Instance OS_eq_dec : EqDecision OS.
Proof. solve_decision. Defined.

(** The string each enumeration value is in the source. *)
Class Show (A : Type) := show : A → string.

#[global] Instance show_breakpoint : Show TailwindBreakpoint := λ bp,
  match bp with
  | bp_xs => "xs" | bp_sm => "sm" | bp_md => "md"
  | bp_lg => "lg" | bp_xl => "xl" | bp_2xl => "2xl"
  end.
#[global] Instance show_platform : Show Platform := λ p,
  match p with mobile => "mobile" | tablet => "tablet" | desktop => "desktop" end.
#[global] Instance show_browser : Show Browser := λ b,
  match b with
  | chrome => "chrome" | firefox => "firefox" | safari => "safari"
  | edge => "edge" | browser_other => "other"
  end.
#[global] Instance show_os : Show OS := λ o,
  match o with
  | windows => "windows" | macos => "macos" | linux => "linux"
  | ios => "ios" | android => "android" | os_other => "other"
  end.

Module ResponsiveState.
Record t := {
  breakpoint : TailwindBreakpoint;
  isMobile : bool;
  isTablet : bool;
  isDesktop : bool;
  isPortrait : bool;
  isLandscape : bool;
  isTouchEnabled : bool;
  platform : Platform;
  browser : Browser;
  os : OS;
  prefersDark : bool
}.
End ResponsiveState.

(** ** The class list of the root element *)

Module DOMTokenList.

Definition add (tokens : list string) (cl : gset string) : gset string :=
  cl ∪ list_to_set tokens.

Definition remove (tokens : list string) (cl : gset string) : gset string :=
  cl ∖ list_to_set tokens.

(** [toggle(token, force)] *)
Definition toggle (token : string) (force : bool) (cl : gset string)
  : gset string :=
  if force then add [token] cl else remove [token] cl.

End DOMTokenList.

(** ** The service *)

Module TAILWIND_BREAKPOINTS.
Definition sm : string := "(min-width: 640px)".
Definition md : string := "(min-width: 768px)".
Definition lg : string := "(min-width: 1024px)".
Definition xl : string := "(min-width: 1280px)".
Definition _2xl : string := "(min-width: 1536px)".
End TAILWIND_BREAKPOINTS.

Module ResponsiveService.

Import DOMTokenList.

(** *** Private helpers *)

(** What the source [observe(mediaQuery)] holds in environment [e]. *)
Definition observe (e : Env) (mediaQuery : string) : bool :=
  matches (BreakpointObserver.observe e [mediaQuery]).

Definition checkMatch (e : Env) (mediaQuery : string) : bool :=
  BreakpointObserver.isMatched e mediaQuery.

Definition detectTouch (e : Env) : bool :=
  if negb (cdkIsBrowser e) then false
  else hasOntouchstart e || (0 <? maxTouchPoints e).

Definition detectPlatform (e : Env) : Platform :=
  if checkMatch e TAILWIND_BREAKPOINTS.lg then desktop
  else if checkMatch e TAILWIND_BREAKPOINTS.md then tablet
  else mobile.

Definition detectBrowser (e : Env) : Browser :=
  if negb (cdkIsBrowser e) then browser_other
  else
    let ua := toLowerCase (userAgent e) in
    if includes ua "edg/" then edge
    else if includes ua "chrome" then chrome
    else if includes ua "firefox" then firefox
    else if includes ua "safari" && negb (includes ua "chrome") then safari
    else browser_other.

Definition detectOS (e : Env) : OS :=
  if negb (cdkIsBrowser e) then os_other
  else
    let ua := toLowerCase (userAgent e) in
    if includes ua "win" then windows
    else if includes ua "mac" then macos
    else if includes ua "linux" then linux
    else if includes ua "iphone" || includes ua "ipad" then ios
    else if includes ua "android" then android
    else os_other.

Definition getPrefersDark (e : Env) : bool :=
  window_matchMedia e "(prefers-color-scheme: dark)".

(** *** The sources of the internal observables, before
    [distinctUntilChanged]: the value each reports in environment [e] *)

Definition isSm_ (e : Env) : bool := observe e TAILWIND_BREAKPOINTS.sm.
Definition isMd_ (e : Env) : bool := observe e TAILWIND_BREAKPOINTS.md.
Definition isLg_ (e : Env) : bool := observe e TAILWIND_BREAKPOINTS.lg.
Definition isXl_ (e : Env) : bool := observe e TAILWIND_BREAKPOINTS.xl.
Definition is2xl_ (e : Env) : bool := observe e TAILWIND_BREAKPOINTS._2xl.

Definition isMobile_ (e : Env) : bool := observe e "(max-width: 767px)".
Definition isTablet_ (e : Env) : bool :=
  observe e "(min-width: 768px) and (max-width: 1023px)".
Definition isDesktop_ (e : Env) : bool := observe e "(min-width: 1024px)".

Definition isPortrait_ (e : Env) : bool := observe e "(orientation: portrait)".
Definition isLandscape_ (e : Env) : bool :=
  observe e "(orientation: landscape)".

(** The [map] of [currentBreakpoint$]. *)
Definition breakpointOf (result : BreakpointState) : TailwindBreakpoint :=
  if truthy (breakpoints result !! TAILWIND_BREAKPOINTS._2xl) then bp_2xl
  else if truthy (breakpoints result !! TAILWIND_BREAKPOINTS.xl) then bp_xl
  else if truthy (breakpoints result !! TAILWIND_BREAKPOINTS.lg) then bp_lg
  else if truthy (breakpoints result !! TAILWIND_BREAKPOINTS.md) then bp_md
  else if truthy (breakpoints result !! TAILWIND_BREAKPOINTS.sm) then bp_sm
  else bp_xs.

Definition currentBreakpoint_ (e : Env) : TailwindBreakpoint :=
  breakpointOf
    (BreakpointObserver.observe e
       [TAILWIND_BREAKPOINTS.sm; TAILWIND_BREAKPOINTS.md;
        TAILWIND_BREAKPOINTS.lg; TAILWIND_BREAKPOINTS.xl;
        TAILWIND_BREAKPOINTS._2xl]).

(** The [map] of [state$]: the snapshot made when [currentBreakpoint$]
    delivers [breakpoint] while the environment is [e]. *)
Definition snapshot (e : Env) (breakpoint : TailwindBreakpoint)
  : ResponsiveState.t :=
  let isMobile := negb (checkMatch e TAILWIND_BREAKPOINTS.md) in
  let isTablet :=
    checkMatch e TAILWIND_BREAKPOINTS.md &&
    negb (checkMatch e TAILWIND_BREAKPOINTS.lg) in
  let isDesktop := checkMatch e TAILWIND_BREAKPOINTS.lg in
  {| ResponsiveState.breakpoint := breakpoint;
     ResponsiveState.isMobile := isMobile;
     ResponsiveState.isTablet := isTablet;
     ResponsiveState.isDesktop := isDesktop;
     ResponsiveState.isPortrait :=
       isPlatformBrowser e && checkMatch e "(orientation: portrait)";
     ResponsiveState.isLandscape :=
       isPlatformBrowser e && checkMatch e "(orientation: landscape)";
     ResponsiveState.isTouchEnabled := isPlatformBrowser e && detectTouch e;
     ResponsiveState.platform :=
       if isDesktop then desktop else if isTablet then tablet else mobile;
     ResponsiveState.browser := detectBrowser e;
     ResponsiveState.os := detectOS e;
     ResponsiveState.prefersDark := isPlatformBrowser e && getPrefersDark e |}.

(** *** The service object

    [classList] is the class list of [document.documentElement]; the
    boolean fields and [currentBreakpoint] are the signals of the public
    API, each holding the latest value of its observable; [state] is the
    latest snapshot of [state$]. *)

Record t := {
  env : Env;
  classList : gset string;
  isSm : bool;
  isMd : bool;
  isLg : bool;
  isXl : bool;
  is2xl : bool;
  isMobile : bool;
  isTablet : bool;
  isDesktop : bool;
  isPortrait : bool;
  isLandscape : bool;
  currentBreakpoint : TailwindBreakpoint;
  state : ResponsiveState.t
}.

(** Reading the [state] signal: [toSignal] with [requireSync] holds a
    value from the start. *)
Definition readState (s : t) : option ResponsiveState.t := Some (state s).

(** The computed signals [state()?.field ?? fallback]. *)
Definition platform (s : t) : Platform :=
  default desktop (ResponsiveState.platform <$> readState s).
Definition browser (s : t) : Browser :=
  default browser_other (ResponsiveState.browser <$> readState s).
Definition os (s : t) : OS :=
  default os_other (ResponsiveState.os <$> readState s).

(** *** The subscribers installed by [applyClassesToHtml] *)

Definition breakpointClasses : list string :=
  ["bp-xs"; "bp-sm"; "bp-md"; "bp-lg"; "bp-xl"; "bp-2xl"].

Definition onBreakpoint (bp : TailwindBreakpoint) (html : gset string)
  : gset string :=
  add ["bp-" +:+ show bp] (remove breakpointClasses html).

Definition onMobile (m : bool) (html : gset string) : gset string :=
  toggle "mobile" m html.

Definition onTablet (m : bool) (html : gset string) : gset string :=
  toggle "tablet" m html.

Definition onDesktop (m : bool) (html : gset string) : gset string :=
  toggle "desktop" m html.

Definition onPortrait (m : bool) (html : gset string) : gset string :=
  toggle "orientation-landscape" (negb m)
    (toggle "orientation-portrait" m html).

Definition updateColorScheme (m : bool) (html : gset string) : gset string :=
  toggle "prefers-light" (negb m) (toggle "prefers-dark" m html).

Definition withClassList (html : gset string) (s : t) : t :=
  {| env := env s; classList := html;
     isSm := isSm s; isMd := isMd s; isLg := isLg s; isXl := isXl s;
     is2xl := is2xl s;
     isMobile := isMobile s; isTablet := isTablet s;
     isDesktop := isDesktop s;
     isPortrait := isPortrait s; isLandscape := isLandscape s;
     currentBreakpoint := currentBreakpoint s; state := state s |}.

(** Every observable replays its latest value to the new subscriber, so
    each subscriber runs once here. *)
Definition applyClassesToHtml (s : t) : t :=
  let e := env s in
  let html := classList s in
  let html := onBreakpoint (currentBreakpoint s) html in
  let html := onMobile (isMobile s) html in
  let html := onTablet (isTablet s) html in
  let html := onDesktop (isDesktop s) html in
  let html := onPortrait (isPortrait s) html in
  let platform := detectPlatform e in
  let html := add ["platform-" +:+ show platform] html in
  let browser := detectBrowser e in
  let html := add ["browser-" +:+ show browser] html in
  let os := detectOS e in
  let html := add ["os-" +:+ show os] html in
  let touchEnabled := detectTouch e in
  let html := toggle "touch-enabled" touchEnabled html in
  let html := toggle "touch-disabled" (negb touchEnabled) html in
  let html :=
    updateColorScheme (window_matchMedia e "(prefers-color-scheme: dark)")
      html in
  withClassList html s.

(** Field initialisers, then the constructor body.  [html0] is the class
    list the root element has before the service exists. *)
Definition construct (e : Env) (html0 : gset string) : t :=
  let bp := currentBreakpoint_ e in
  let s :=
    {| env := e; classList := html0;
       isSm := isSm_ e; isMd := isMd_ e; isLg := isLg_ e; isXl := isXl_ e;
       is2xl := is2xl_ e;
       isMobile := isMobile_ e; isTablet := isTablet_ e;
       isDesktop := isDesktop_ e;
       isPortrait := isPortrait_ e; isLandscape := isLandscape_ e;
       currentBreakpoint := bp; state := snapshot e bp |} in
  if isPlatformBrowser e then applyClassesToHtml s else s.

(** *** Change notifications *)

Inductive Event :=
| Resize (width height : Q)
| ColorSchemeChange (dark : bool).

Definition after (ev : Event) (e : Env) : Env :=
  match ev with
  | Resize w h =>
      {| isPlatformBrowser := isPlatformBrowser e;
         cdkIsBrowser := cdkIsBrowser e;
         viewportWidth := w; viewportHeight := h;
         colorSchemeDark := colorSchemeDark e;
         userAgent := userAgent e;
         hasOntouchstart := hasOntouchstart e;
         maxTouchPoints := maxTouchPoints e |}
  | ColorSchemeChange dark =>
      {| isPlatformBrowser := isPlatformBrowser e;
         cdkIsBrowser := cdkIsBrowser e;
         viewportWidth := viewportWidth e;
         viewportHeight := viewportHeight e;
         colorSchemeDark := dark;
         userAgent := userAgent e;
         hasOntouchstart := hasOntouchstart e;
         maxTouchPoints := maxTouchPoints e |}
  end.

(** [distinctUntilChanged] (and the [change] event of a media query list):
    the subscriber runs only when the value differs from the last one. *)
Definition deliver {A} `{EqDecision A} (last next : A)
    (subscriber : A → gset string → gset string) (html : gset string)
  : gset string :=
  if decide (next = last) then html else subscriber next html.

(** A delivery by the CDK.  The browser has told the CDK's media query
    lists what they match in environment [seen]; after the debounce of
    [BreakpointObserver.observe] every observable whose value changed
    notifies its subscribers, which run while the environment is [live]:
    the [map] of [state$] receives the breakpoint of [seen] and reads
    [checkMatch] in [live].  [env] is the environment last observed.  The
    DOM subscribers and the colour scheme listener exist only if the
    constructor ran [applyClassesToHtml]. *)
Definition notify (seen live : Env) (s : t) : t :=
  let e0 := env s in
  let e := seen in
  let bp := currentBreakpoint_ e in
  let html := classList s in
  let html :=
    if isPlatformBrowser e0 then
      let html := deliver (currentBreakpoint s) bp onBreakpoint html in
      let html := deliver (isMobile s) (isMobile_ e) onMobile html in
      let html := deliver (isTablet s) (isTablet_ e) onTablet html in
      let html := deliver (isDesktop s) (isDesktop_ e) onDesktop html in
      let html := deliver (isPortrait s) (isPortrait_ e) onPortrait html in
      deliver (window_matchMedia e0 "(prefers-color-scheme: dark)")
        (window_matchMedia e "(prefers-color-scheme: dark)")
        updateColorScheme html
    else html in
  {| env := e; classList := html;
     isSm := isSm_ e; isMd := isMd_ e; isLg := isLg_ e; isXl := isXl_ e;
     is2xl := is2xl_ e;
     isMobile := isMobile_ e; isTablet := isTablet_ e;
     isDesktop := isDesktop_ e;
     isPortrait := isPortrait_ e; isLandscape := isLandscape_ e;
     currentBreakpoint := bp;
     state :=
       if decide (bp = currentBreakpoint s) then state s
       else snapshot live bp |}.

(** The environment changes by [ev] and is at rest when the CDK delivers:
    what was observed is what is live. *)
Definition dispatch (ev : Event) (s : t) : t :=
  let e := after ev (env s) in
  notify e e s.

Definition run (evs : list Event) (s : t) : t :=
  foldl (λ s ev, dispatch ev s) s evs.

End ResponsiveService.

(** ** Concrete environments used in the examples below *)

Module Examples.

Definition edgeUA : string :=
  "Mozilla/5.0 (Windows NT 10.0; Win64; x64) AppleWebKit/537.36 (KHTML, like Gecko) Chrome/120.0.0.0 Safari/537.36 Edg/120.0.0.0".

Definition iphoneUA : string :=
  "Mozilla/5.0 (iPhone; CPU iPhone OS 16_6 like Mac OS X) AppleWebKit/605.1.15 (KHTML, like Gecko) Version/16.6 Mobile/15E148 Safari/604.1".

Definition darwinUA : string :=
  "Safari/19616.1.27 CFNetwork/1410.0.3 Darwin/22.6.0 (x86_64) (MacBookPro16,1)".

Definition androidUA : string :=
  "Mozilla/5.0 (Linux; Android 14; Pixel 8) AppleWebKit/537.36 (KHTML, like Gecko) Chrome/120.0.0.0 Mobile Safari/537.36".

(** A browser window of the given size and colour scheme, with no touch
    input. *)
Definition browserEnv (ua : string) (w h : Q) (dark : bool) : Env :=
  {| isPlatformBrowser := true; cdkIsBrowser := true;
     viewportWidth := w; viewportHeight := h;
     colorSchemeDark := dark; userAgent := ua;
     hasOntouchstart := false; maxTouchPoints := 0 |}.

(** Server-side rendering: neither flag says browser, and there is no
    viewport, user agent or touch input to ask. *)
Definition serverEnv : Env :=
  {| isPlatformBrowser := false; cdkIsBrowser := false;
     viewportWidth := 0; viewportHeight := 0;
     colorSchemeDark := false; userAgent := "";
     hasOntouchstart := false; maxTouchPoints := 0 |}.

Definition iphoneEnv : Env :=
  {| isPlatformBrowser := true; cdkIsBrowser := true;
     viewportWidth := 390; viewportHeight := 844;
     colorSchemeDark := false; userAgent := iphoneUA;
     hasOntouchstart := true; maxTouchPoints := 5 |}.

End Examples.

(** ** Vocabulary of the properties *)

Section Vocabulary.

Import ResponsiveService.

Implicit Types (s : t) (e : Env) (ev : Event) (html : gset string).

(** The states the service can be in. *)
Inductive reachable : t → Prop :=
| reachable_construct e html : reachable (construct e html)
| reachable_dispatch ev s : reachable s → reachable (dispatch ev s).


(** No event changes what kind of environment the service runs in. *)
Definition sameClient (e1 e2 : Env) : Prop :=
  isPlatformBrowser e1 = isPlatformBrowser e2 ∧
  cdkIsBrowser e1 = cdkIsBrowser e2 ∧
  userAgent e1 = userAgent e2 ∧
  hasOntouchstart e1 = hasOntouchstart e2 ∧
  maxTouchPoints e1 = maxTouchPoints e2.

(** Every signal holds the value of its observable in the current
    environment. *)
Definition signalsCurrent s : Prop :=
  isSm s = isSm_ (env s) ∧ isMd s = isMd_ (env s) ∧
  isLg s = isLg_ (env s) ∧ isXl s = isXl_ (env s) ∧
  is2xl s = is2xl_ (env s) ∧
  isMobile s = isMobile_ (env s) ∧ isTablet s = isTablet_ (env s) ∧
  isDesktop s = isDesktop_ (env s) ∧
  isPortrait s = isPortrait_ (env s) ∧
  isLandscape s = isLandscape_ (env s) ∧
  currentBreakpoint s = currentBreakpoint_ (env s).

(** What the latest snapshot has in common with a snapshot taken now:
    everything but the orientation and the colour scheme. *)
Definition snapshotCurrent s : Prop :=
  let st := state s in
  let now := snapshot (env s) (currentBreakpoint_ (env s)) in
  ResponsiveState.breakpoint st = ResponsiveState.breakpoint now ∧
  ResponsiveState.isMobile st = ResponsiveState.isMobile now ∧
  ResponsiveState.isTablet st = ResponsiveState.isTablet now ∧
  ResponsiveState.isDesktop st = ResponsiveState.isDesktop now ∧
  ResponsiveState.isTouchEnabled st = ResponsiveState.isTouchEnabled now ∧
  ResponsiveState.platform st = ResponsiveState.platform now ∧
  ResponsiveState.browser st = ResponsiveState.browser now ∧
  ResponsiveState.os st = ResponsiveState.os now.

(** Where [isPlatformBrowser] is false the snapshot never reports an
    orientation, a touch screen or a dark colour scheme. *)
Definition snapshotInert s : Prop :=
  ResponsiveState.isPortrait (state s) = false ∧
  ResponsiveState.isLandscape (state s) = false ∧
  ResponsiveState.isTouchEnabled (state s) = false ∧
  ResponsiveState.prefersDark (state s) = false.

(** Exactly one of three flags is set. *)
Definition exactlyOne (a b c : bool) : Prop :=
  (a = true ∧ b = false ∧ c = false) ∨
  (a = false ∧ b = true ∧ c = false) ∨
  (a = false ∧ b = false ∧ c = true).

(** The rule of the specification for the breakpoint: the minimum widths
    from the largest to the smallest, the first that the width reaches
    wins, and xs when it reaches none. *)
Definition thresholdsDescending : list (Q * TailwindBreakpoint) :=
  [(1536%Q, bp_2xl); (1280%Q, bp_xl); (1024%Q, bp_lg); (768%Q, bp_md);
   (640%Q, bp_sm)].

Definition firstMatching (w : Q) : TailwindBreakpoint :=
  default bp_xs (snd <$> find (λ t, Qle_bool t.1 w) thresholdsDescending).

(** The part of [applyClassesToHtml] that subscribes to nothing. *)
Definition applyStatic e html : gset string :=
  let html := DOMTokenList.add ["platform-" +:+ show (detectPlatform e)] html in
  let html := DOMTokenList.add ["browser-" +:+ show (detectBrowser e)] html in
  let html := DOMTokenList.add ["os-" +:+ show (detectOS e)] html in
  let html := DOMTokenList.toggle "touch-enabled" (detectTouch e) html in
  DOMTokenList.toggle "touch-disabled" (negb (detectTouch e)) html.

(** The classes the service keeps up to date, and the classes it sets
    when it is constructed. *)
Definition reactiveClasses : list string :=
  breakpointClasses ++
  ["mobile"; "tablet"; "desktop";
   "orientation-portrait"; "orientation-landscape";
   "prefers-dark"; "prefers-light"].

Definition staticClasses : list string :=
  ((λ p : Platform, "platform-" +:+ show p) <$> [mobile; tablet; desktop]) ++
  ((λ b : Browser, "browser-" +:+ show b) <$>
     [chrome; firefox; safari; edge; browser_other]) ++
  ((λ o : OS, "os-" +:+ show o) <$>
     [windows; macos; linux; ios; android; os_other]) ++
  ["touch-enabled"; "touch-disabled"].

(** The reactive classes of the root element show the current
    environment. *)
Definition classesSynced s : Prop :=
  let e := env s in
  let html := classList s in
  (∀ bp, "bp-" +:+ show bp ∈ html ↔ bp = currentBreakpoint_ e) ∧
  ("mobile" ∈ html ↔ isMobile_ e = true) ∧
  ("tablet" ∈ html ↔ isTablet_ e = true) ∧
  ("desktop" ∈ html ↔ isDesktop_ e = true) ∧
  ("orientation-portrait" ∈ html ↔ isPortrait_ e = true) ∧
  ("orientation-landscape" ∈ html ↔ isPortrait_ e = false) ∧
  ("prefers-dark" ∈ html ↔ colorSchemeDark e = true) ∧
  ("prefers-light" ∈ html ↔ colorSchemeDark e = false).

(** The classes the service removes as well as adds. *)
Definition managedClasses : list string :=
  reactiveClasses ++ ["touch-enabled"; "touch-disabled"].

(** The reactive classes that environment [e] calls for. *)
Definition reactiveOn e : list string :=
  ["bp-" +:+ show (currentBreakpoint_ e)] ++
  (if isMobile_ e then ["mobile"] else []) ++
  (if isTablet_ e then ["tablet"] else []) ++
  (if isDesktop_ e then ["desktop"] else []) ++
  [if isPortrait_ e then "orientation-portrait" else "orientation-landscape"] ++
  [if colorSchemeDark e then "prefers-dark" else "prefers-light"].

(** The classes that construction in environment [e] calls for. *)
Definition staticOn e : list string :=
  ["platform-" +:+ show (detectPlatform e);
   "browser-" +:+ show (detectBrowser e);
   "os-" +:+ show (detectOS e);
   if detectTouch e then "touch-enabled" else "touch-disabled"].

(** The breakpoints in ascending order. *)
Definition rank (bp : TailwindBreakpoint) : nat :=
  match bp with
  | bp_xs => 0 | bp_sm => 1 | bp_md => 2
  | bp_lg => 3 | bp_xl => 4 | bp_2xl => 5
  end.

End Vocabulary.

(** * Properties *)

(** ** Strings *)

Section String_facts.

Implicit Types s pat pre mid post : string.

Lemma app_cons c s1 s2 : String c s1 +:+ s2 = String c (s1 +:+ s2).
Proof. reflexivity. Qed.

Lemma app_empty s : "" +:+ s = s.
Proof. reflexivity. Qed.

Lemma toLowerCase_app s1 s2 :
  toLowerCase (s1 +:+ s2) = toLowerCase s1 +:+ toLowerCase s2.
Proof.
  induction s1 as [|c s1 IH]; [done|].
  rewrite app_cons. cbn [toLowerCase]. by rewrite IH.
Qed.

(** A split of the folded string comes from a split of the string. *)
Lemma toLowerCase_split s a b :
  toLowerCase s = a +:+ b →
  ∃ a' b', s = a' +:+ b' ∧ toLowerCase a' = a ∧ toLowerCase b' = b.
Proof.
  revert s. induction a as [|c a IH]; intros s Hs.
  - by exists "", s.
  - destruct s as [|d s]; [done|].
    rewrite app_cons in Hs. cbn [toLowerCase] in Hs.
    injection Hs as Hc Hs.
    destruct (IH _ Hs) as (a' & b' & -> & Ha & Hb).
    exists (String d a'), b'. cbn [toLowerCase]. by rewrite Hc, Ha.
Qed.

Lemma startsWith_spec s pat :
  startsWith s pat = true ↔ ∃ post, s = pat +:+ post.
Proof.
  revert s. induction pat as [|p pat IH]; intros s.
  - split; [by exists s | by destruct s].
  - destruct s as [|c s]; cbn [startsWith].
    + split; [done | by intros [post ?]].
    + case_decide as Hpc.
      * subst c. rewrite IH. split.
        -- intros [post ->]. by exists post.
        -- intros [post Hpost]. rewrite app_cons in Hpost.
           injection Hpost as ->. by exists post.
      * split; [done|]. intros [post Hpost]. rewrite app_cons in Hpost.
        by injection Hpost as ? _.
Qed.

Lemma includes_unfold s pat :
  includes s pat =
  startsWith s pat ||
  match s with EmptyString => false | String _ s' => includes s' pat end.
Proof. by destruct s. Qed.

Lemma includes_spec s pat :
  includes s pat = true ↔ ∃ pre post, s = pre +:+ pat +:+ post.
Proof.
  induction s as [|c s IH]; rewrite includes_unfold, orb_true_iff.
  - rewrite startsWith_spec. split.
    + intros [[post ->]|?]; [by exists "", post | done].
    + intros ([|??] & post & H); [left; by exists post | done].
  - rewrite startsWith_spec, IH. split.
    + intros [[post ->]|(pre & post & ->)].
      * by exists "", post.
      * by exists (String c pre), post.
    + intros ([|d pre] & post & H).
      * left. by exists post.
      * right. rewrite app_cons in H. injection H as _ ->. by exists pre, post.
Qed.

(** [toLowerCase(s).includes(pat)] is the case-insensitive occurrence. *)
Lemma includes_toLowerCase s pat :
  includes (toLowerCase s) pat = true ↔ containsCI s pat.
Proof.
  rewrite includes_spec. unfold containsCI. split.
  - intros (pre & post & H).
    apply toLowerCase_split in H as (pre' & rest & -> & _ & H).
    apply toLowerCase_split in H as (mid & post' & -> & Hmid & _).
    by exists pre', mid, post'.
  - intros (pre & mid & post & -> & <-).
    exists (toLowerCase pre), (toLowerCase post).
    by rewrite !toLowerCase_app.
Qed.

Lemma includes_toLowerCase_false s pat :
  includes (toLowerCase s) pat = false ↔ ¬ containsCI s pat.
Proof.
  rewrite <- includes_toLowerCase. by destruct (includes _ _).
Qed.

End String_facts.

(** ** Browser and OS detection *)

Section Detection.

Import ResponsiveService.

Local Ltac ci_to_bool :=
  repeat match goal with
    | H : containsCI _ _ |- _ => apply includes_toLowerCase in H
    | H : ¬ containsCI _ _ |- _ => apply includes_toLowerCase_false in H
    end.

Local Ltac use_includes :=
  repeat match goal with
    | H : includes _ _ = _ |- _ => rewrite H; clear H
    end.

(** C6.  A user agent that contains both "edg/" and "chrome", in any
    letter case, is detected as edge.  In a browser the patterns are tried
    in the order edg/, chrome, firefox, safari, the first that occurs
    decides, and the result is other when none occurs; outside a browser
    the result is other. *)
Theorem detectBrowser_precedence (e : Env) :
  (cdkIsBrowser e = false → detectBrowser e = browser_other) ∧
  (cdkIsBrowser e = true →
   let ua := userAgent e in
   (containsCI ua "edg/" → containsCI ua "chrome" →
    detectBrowser e = edge) ∧
   (containsCI ua "edg/" → detectBrowser e = edge) ∧
   (¬ containsCI ua "edg/" → containsCI ua "chrome" →
    detectBrowser e = chrome) ∧
   (¬ containsCI ua "edg/" → ¬ containsCI ua "chrome" →
    containsCI ua "firefox" → detectBrowser e = firefox) ∧
   (¬ containsCI ua "edg/" → ¬ containsCI ua "chrome" →
    ¬ containsCI ua "firefox" → containsCI ua "safari" →
    detectBrowser e = safari) ∧
   (¬ containsCI ua "edg/" → ¬ containsCI ua "chrome" →
    ¬ containsCI ua "firefox" → ¬ containsCI ua "safari" →
    detectBrowser e = browser_other)).
Proof.
  unfold detectBrowser. split; intros ->; [done|].
  cbn [negb]. repeat split; intros; ci_to_bool; by use_includes.
Qed.

Lemma detectBrowser_precedence_witness :
  containsCI Examples.edgeUA "edg/" ∧ containsCI Examples.edgeUA "chrome" ∧
  detectBrowser (Examples.browserEnv Examples.edgeUA 1920 1080 false) = edge.
Proof.
  assert (He : containsCI Examples.edgeUA "edg/")
    by (apply includes_toLowerCase; vm_compute; reflexivity).
  assert (Hc : containsCI Examples.edgeUA "chrome")
    by (apply includes_toLowerCase; vm_compute; reflexivity).
  split; [exact He|]. split; [exact Hc|].
  exact (proj1
           (proj2
              (detectBrowser_precedence
                 (Examples.browserEnv Examples.edgeUA 1920 1080 false))
              eq_refl) He Hc).
Defined.

(** The part of C7 that the code keeps: "iphone" is detected as ios when
    none of "win", "mac" and "linux" occurs. *)
Lemma detectOS_iphone_alone (e : Env) :
  cdkIsBrowser e = true →
  containsCI (userAgent e) "iphone" →
  ¬ containsCI (userAgent e) "win" →
  ¬ containsCI (userAgent e) "mac" →
  ¬ containsCI (userAgent e) "linux" →
  detectOS e = ios.
Proof.
  unfold detectOS. intros -> **. cbn [negb]. ci_to_bool. by use_includes.
Qed.

(** C7.  The user agent of Safari on an iPhone contains "iphone" and also
    "Mac OS X"; the test for "mac" comes first and the result is macos,
    not ios. *)
Theorem detectOS_iphone_userAgent :
  containsCI (userAgent Examples.iphoneEnv) "iphone" ∧
  cdkIsBrowser Examples.iphoneEnv = true ∧
  detectOS Examples.iphoneEnv = macos.
Proof.
  split; [|split]; [|reflexivity|vm_compute; reflexivity].
  apply includes_toLowerCase. vm_compute. reflexivity.
Qed.

(** C9.  In a browser, a user agent in which "win" occurs anywhere, in any
    letter case and also inside a longer word, is detected as windows,
    whatever else occurs in it. *)
Theorem detectOS_win_substring (e : Env) :
  cdkIsBrowser e = true →
  containsCI (userAgent e) "win" →
  detectOS e = windows.
Proof.
  unfold detectOS. intros -> Hwin. cbn [negb]. ci_to_bool. by use_includes.
Qed.

Lemma detectOS_win_substring_witness :
  containsCI Examples.darwinUA "mac" ∧ containsCI Examples.darwinUA "win" ∧
  detectOS (Examples.browserEnv Examples.darwinUA 1440 900 false) = windows.
Proof.
  split; [apply includes_toLowerCase; vm_compute; reflexivity|].
  assert (Hw : containsCI Examples.darwinUA "win")
    by (apply includes_toLowerCase; vm_compute; reflexivity).
  split; [exact Hw|].
  exact (detectOS_win_substring
           (Examples.browserEnv Examples.darwinUA 1440 900 false)
           eq_refl Hw).
Defined.

End Detection.

(** ** Media queries of the service, evaluated *)

Lemma Qle_bool_spec (x y : Q) :
  BoolSpec (x <= y)%Q (y < x)%Q (Qle_bool x y).
Proof.
  destruct (Qle_bool x y) eqn:E; constructor.
  - by apply Qle_bool_iff.
  - apply Qnot_le_lt. intros H. apply Qle_bool_iff in H. congruence.
Qed.

Lemma Qle_bool_false (x y : Q) : Qle_bool x y = false ↔ (y < x)%Q.
Proof. destruct (Qle_bool_spec x y); split; (done || lra). Qed.

Lemma negb_Qle_bool (x y : Q) : negb (Qle_bool x y) = true ↔ (y < x)%Q.
Proof. rewrite negb_true_iff. apply Qle_bool_false. Qed.

(** Decides every comparison [Qle_bool a b] of the goal. *)
Ltac width_cases :=
  repeat match goal with
    | |- context [Qle_bool ?a ?b] => destruct (Qle_bool_spec a b)
    end;
  try done; try lra.

Section Media.

Import ResponsiveService.

(** Replaces the parse of a literal query by its result. *)
Local Ltac parse_query :=
  unfold window_matchMedia;
  match goal with
  | |- context [MediaQuery.parse ?q] =>
      let r := eval vm_compute in (MediaQuery.parse q) in
      change (MediaQuery.parse q) with r
  end;
  cbn [forallb MediaQuery.holds]; rewrite ?andb_true_r.

Lemma window_sm e :
  window_matchMedia e TAILWIND_BREAKPOINTS.sm = Qle_bool 640 (viewportWidth e).
Proof. by parse_query. Qed.

Lemma window_md e :
  window_matchMedia e TAILWIND_BREAKPOINTS.md = Qle_bool 768 (viewportWidth e).
Proof. by parse_query. Qed.

Lemma window_lg e :
  window_matchMedia e TAILWIND_BREAKPOINTS.lg = Qle_bool 1024 (viewportWidth e).
Proof. by parse_query. Qed.

Lemma window_xl e :
  window_matchMedia e TAILWIND_BREAKPOINTS.xl = Qle_bool 1280 (viewportWidth e).
Proof. by parse_query. Qed.

Lemma window_2xl e :
  window_matchMedia e TAILWIND_BREAKPOINTS._2xl = Qle_bool 1536 (viewportWidth e).
Proof. by parse_query. Qed.

Lemma window_mobile e :
  window_matchMedia e "(max-width: 767px)" = Qle_bool (viewportWidth e) 767.
Proof. by parse_query. Qed.

Lemma window_tablet e :
  window_matchMedia e "(min-width: 768px) and (max-width: 1023px)" =
  Qle_bool 768 (viewportWidth e) && Qle_bool (viewportWidth e) 1023.
Proof. by parse_query. Qed.

Lemma window_portrait e :
  window_matchMedia e "(orientation: portrait)" =
  Qle_bool (viewportWidth e) (viewportHeight e).
Proof. by parse_query. Qed.

Lemma window_landscape e :
  window_matchMedia e "(orientation: landscape)" =
  negb (Qle_bool (viewportWidth e) (viewportHeight e)).
Proof. by parse_query. Qed.

Lemma window_dark e :
  window_matchMedia e "(prefers-color-scheme: dark)" = colorSchemeDark e.
Proof. parse_query. by destruct (colorSchemeDark e). Qed.

(** Outside a browser none of the queries of the service matches. *)
Lemma matchMedia_server e q :
  cdkIsBrowser e = false → q ≠ "all" → q ≠ "" →
  BreakpointObserver.matchMedia e q = false.
Proof.
  intros He ??. unfold BreakpointObserver.matchMedia.
  rewrite He. unfold BreakpointObserver.noopMatchMedia.
  by rewrite !bool_decide_eq_false_2.
Qed.

Lemma matchMedia_browser e q :
  cdkIsBrowser e = true →
  BreakpointObserver.matchMedia e q = window_matchMedia e q.
Proof. intros He. unfold BreakpointObserver.matchMedia. by rewrite He. Qed.

Lemma observe_matchMedia e q : observe e q = BreakpointObserver.matchMedia e q.
Proof. unfold observe. cbn. apply orb_false_r. Qed.

Lemma checkMatch_matchMedia e q :
  checkMatch e q = BreakpointObserver.matchMedia e q.
Proof. reflexivity. Qed.

(** [currentBreakpoint$] reads the five results back out of the object
    that [observe] reports. *)
Lemma currentBreakpoint_matchMedia e :
  currentBreakpoint_ e =
  if BreakpointObserver.matchMedia e TAILWIND_BREAKPOINTS._2xl then bp_2xl
  else if BreakpointObserver.matchMedia e TAILWIND_BREAKPOINTS.xl then bp_xl
  else if BreakpointObserver.matchMedia e TAILWIND_BREAKPOINTS.lg then bp_lg
  else if BreakpointObserver.matchMedia e TAILWIND_BREAKPOINTS.md then bp_md
  else if BreakpointObserver.matchMedia e TAILWIND_BREAKPOINTS.sm then bp_sm
  else bp_xs.
Proof. reflexivity. Qed.

Lemma currentBreakpoint_browser e :
  cdkIsBrowser e = true →
  currentBreakpoint_ e =
  let w := viewportWidth e in
  if Qle_bool 1536 w then bp_2xl
  else if Qle_bool 1280 w then bp_xl
  else if Qle_bool 1024 w then bp_lg
  else if Qle_bool 768 w then bp_md
  else if Qle_bool 640 w then bp_sm
  else bp_xs.
Proof.
  intros He. rewrite currentBreakpoint_matchMedia.
  rewrite !matchMedia_browser by done.
  by rewrite window_2xl, window_xl, window_lg, window_md, window_sm.
Qed.

Lemma currentBreakpoint_server e :
  cdkIsBrowser e = false → currentBreakpoint_ e = bp_xs.
Proof.
  intros He. rewrite currentBreakpoint_matchMedia.
  by rewrite !matchMedia_server.
Qed.

(** The md and lg matches are functions of the breakpoint, in every
    environment. *)
Lemma checkMatch_md_breakpoint e :
  checkMatch e TAILWIND_BREAKPOINTS.md =
  match currentBreakpoint_ e with
  | bp_xs | bp_sm => false
  | _ => true
  end.
Proof.
  rewrite checkMatch_matchMedia.
  destruct (cdkIsBrowser e) eqn:He.
  - rewrite currentBreakpoint_browser, matchMedia_browser, window_md by done.
    cbn zeta. width_cases.
  - by rewrite currentBreakpoint_server, matchMedia_server.
Qed.

Lemma checkMatch_lg_breakpoint e :
  checkMatch e TAILWIND_BREAKPOINTS.lg =
  match currentBreakpoint_ e with
  | bp_lg | bp_xl | bp_2xl => true
  | _ => false
  end.
Proof.
  rewrite checkMatch_matchMedia.
  destruct (cdkIsBrowser e) eqn:He.
  - rewrite currentBreakpoint_browser, matchMedia_browser, window_lg by done.
    cbn zeta. width_cases.
  - by rewrite currentBreakpoint_server, matchMedia_server.
Qed.

End Media.

(** ** The service as a state machine *)

Section Machine.

Import ResponsiveService.

Implicit Types (s : t) (e : Env) (ev : Event) (html : gset string).

Lemma run_snoc evs ev s : run (evs ++ [ev]) s = dispatch ev (run evs s).
Proof. unfold run. by rewrite foldl_app. Qed.

Lemma reachable_run evs e html : reachable (run evs (construct e html)).
Proof.
  induction evs as [|ev evs IH] using rev_ind.
  - apply reachable_construct.
  - rewrite run_snoc. by apply reachable_dispatch.
Qed.

Lemma env_construct e html : env (construct e html) = e.
Proof. unfold construct. by destruct (isPlatformBrowser e). Qed.

Lemma env_dispatch ev s : env (dispatch ev s) = after ev (env s).
Proof. reflexivity. Qed.

Lemma sameClient_after ev e : sameClient (after ev e) e.
Proof. by destruct ev. Qed.

Lemma sameClient_trans e1 e2 e3 :
  sameClient e1 e2 → sameClient e2 e3 → sameClient e1 e3.
Proof. unfold sameClient. intuition congruence. Qed.

Lemma sameClient_run evs e html :
  sameClient (env (run evs (construct e html))) e.
Proof.
  induction evs as [|ev evs IH] using rev_ind.
  - cbn [run foldl]. by rewrite env_construct.
  - rewrite run_snoc, env_dispatch.
    eapply sameClient_trans; [apply sameClient_after | exact IH].
Qed.

Lemma detectBrowser_sameClient e1 e2 :
  sameClient e1 e2 → detectBrowser e1 = detectBrowser e2.
Proof. unfold detectBrowser. by intros (_ & -> & -> & _). Qed.

Lemma detectOS_sameClient e1 e2 :
  sameClient e1 e2 → detectOS e1 = detectOS e2.
Proof. unfold detectOS. by intros (_ & -> & -> & _). Qed.

Lemma detectTouch_sameClient e1 e2 :
  sameClient e1 e2 → detectTouch e1 = detectTouch e2.
Proof. unfold detectTouch. by intros (_ & -> & _ & -> & ->). Qed.

Lemma reachable_signalsCurrent s : reachable s → signalsCurrent s.
Proof.
  destruct 1 as [e html|ev s _]; [|by repeat split].
  unfold construct. by destruct (isPlatformBrowser e).
Qed.

Lemma platform_of_matches e bp :
  ResponsiveState.platform (snapshot e bp) = detectPlatform e.
Proof.
  unfold detectPlatform. cbn.
  by destruct (checkMatch e TAILWIND_BREAKPOINTS.lg),
              (checkMatch e TAILWIND_BREAKPOINTS.md).
Qed.

Lemma state_construct e html :
  state (construct e html) = snapshot e (currentBreakpoint_ e).
Proof. unfold construct. by destruct (isPlatformBrowser e). Qed.

Lemma reachable_snapshotCurrent s : reachable s → snapshotCurrent s.
Proof.
  induction 1 as [e html|ev s Hs IH].
  - red. by rewrite state_construct, env_construct.
  - apply reachable_signalsCurrent in Hs as (_&_&_&_&_&_&_&_&_&_& Hbp).
    red. rewrite env_dispatch. cbn [state dispatch notify]. rewrite Hbp.
    case_decide as Hsame; [|done].
    destruct IH as (H1 & H2 & H3 & H4 & H5 & H6 & H7 & H8).
    rewrite H1, H2, H3, H4, H5, H6, H7, H8. clear H1 H2 H3 H4 H5 H6 H7 H8.
    pose proof (sameClient_after ev (env s)) as Hc.
    rewrite !platform_of_matches. unfold detectPlatform. cbn.
    rewrite !checkMatch_md_breakpoint, !checkMatch_lg_breakpoint, Hsame.
    rewrite (detectBrowser_sameClient _ _ Hc), (detectOS_sameClient _ _ Hc),
      (detectTouch_sameClient _ _ Hc).
    by destruct Hc as (-> & _).
Qed.

Lemma reachable_snapshotInert s :
  reachable s → isPlatformBrowser (env s) = false → snapshotInert s.
Proof.
  induction 1 as [e html|ev s Hs IH].
  - rewrite env_construct. unfold snapshotInert.
    rewrite state_construct. cbn. by intros ->.
  - rewrite env_dispatch. intros He.
    assert (isPlatformBrowser (env s) = false) as He0
      by (by destruct (sameClient_after ev (env s)) as (<- & _)).
    unfold snapshotInert. cbn [state dispatch notify].
    case_decide; [by apply IH|]. cbn. by rewrite He.
Qed.

End Machine.

(** ** Breakpoint and device classification *)

Section Classification.

Import ResponsiveService.

Implicit Types (s : t) (e : Env) (html : gset string) (evs : list Event).

Lemma firstMatching_unfold w :
  firstMatching w =
  if Qle_bool 1536 w then bp_2xl
  else if Qle_bool 1280 w then bp_xl
  else if Qle_bool 1024 w then bp_lg
  else if Qle_bool 768 w then bp_md
  else if Qle_bool 640 w then bp_sm
  else bp_xs.
Proof. unfold firstMatching. cbn. by repeat case_match. Qed.

(** C1.  In a browser, at every moment of the life of the service, the
    currentBreakpoint signal is 2xl from 1536 pixels of viewport width,
    xl from 1280, lg from 1024, md from 768, sm from 640 and xs below;
    this is the first of the five minimum widths, taken from the largest
    down, that the width reaches. *)
Theorem currentBreakpoint_bands e html evs :
  cdkIsBrowser e = true →
  let s := run evs (construct e html) in
  let w := viewportWidth (env s) in
  ((1536 <= w)%Q → currentBreakpoint s = bp_2xl) ∧
  ((1280 <= w < 1536)%Q → currentBreakpoint s = bp_xl) ∧
  ((1024 <= w < 1280)%Q → currentBreakpoint s = bp_lg) ∧
  ((768 <= w < 1024)%Q → currentBreakpoint s = bp_md) ∧
  ((640 <= w < 768)%Q → currentBreakpoint s = bp_sm) ∧
  ((w < 640)%Q → currentBreakpoint s = bp_xs) ∧
  currentBreakpoint s = firstMatching w.
Proof.
  intros He s w.
  pose proof (reachable_signalsCurrent s (reachable_run evs e html))
    as (_&_&_&_&_&_&_&_&_&_& ->).
  assert (cdkIsBrowser (env s) = true) as Hs.
  { destruct (sameClient_run evs e html) as (_ & Hc & _).
    subst s. by rewrite Hc. }
  rewrite firstMatching_unfold, (currentBreakpoint_browser _ Hs).
  fold w. cbn zeta. repeat split; intros; width_cases.
Qed.

Lemma currentBreakpoint_bands_witness :
  currentBreakpoint
    (run [Resize 1280 800]
       (construct (Examples.browserEnv Examples.edgeUA 1920 1080 false) ∅))
  = bp_xl.
Proof.
  destruct (currentBreakpoint_bands
              (Examples.browserEnv Examples.edgeUA 1920 1080 false) ∅
              [Resize 1280 800] eq_refl) as (_ & Hxl & _).
  apply Hxl. change (viewportWidth _) with 1280%Q. lra.
Defined.

(** In a browser, at every moment: the device fields of the snapshot follow
    the bands (mobile below 768 pixels of viewport width, tablet from 768
    to below 1024, desktop from 1024) and exactly one of them is set; the
    device signals follow their own queries (mobile up to 767 pixels,
    tablet from 768 to 1023, desktop from 1024), so that exactly one of
    them is set except strictly between 767 and 768 and strictly between
    1023 and 1024 pixels, where none is. *)
Lemma device_bands e html evs :
  cdkIsBrowser e = true →
  let s := run evs (construct e html) in
  let w := viewportWidth (env s) in
  let st := state s in
  ((isMobile s = true ↔ (w <= 767)%Q) ∧
   (isTablet s = true ↔ (768 <= w <= 1023)%Q) ∧
   (isDesktop s = true ↔ (1024 <= w)%Q) ∧
   (exactlyOne (isMobile s) (isTablet s) (isDesktop s) ↔
    ¬ (767 < w < 768)%Q ∧ ¬ (1023 < w < 1024)%Q) ∧
   ((767 < w < 768)%Q ∨ (1023 < w < 1024)%Q →
    isMobile s = false ∧ isTablet s = false ∧ isDesktop s = false)) ∧
  ((ResponsiveState.isMobile st = true ↔ (w < 768)%Q) ∧
   (ResponsiveState.isTablet st = true ↔ (768 <= w < 1024)%Q) ∧
   (ResponsiveState.isDesktop st = true ↔ (1024 <= w)%Q) ∧
   exactlyOne (ResponsiveState.isMobile st) (ResponsiveState.isTablet st)
     (ResponsiveState.isDesktop st)).
Proof.
  intros He s w st.
  pose proof (reachable_run evs e html) as Hr. fold s in Hr.
  pose proof (reachable_signalsCurrent s Hr)
    as (_&_&_&_&_& Hm & Ht & Hd &_).
  pose proof (reachable_snapshotCurrent s Hr)
    as (_ & Hsm & Hst & Hsd & _).
  assert (cdkIsBrowser (env s) = true) as Hs.
  { destruct (sameClient_run evs e html) as (_ & Hc & _).
    subst s. by rewrite Hc. }
  subst st. rewrite Hm, Ht, Hd, Hsm, Hst, Hsd.
  cbn [snapshot ResponsiveState.isMobile ResponsiveState.isTablet
         ResponsiveState.isDesktop].
  unfold isMobile_, isTablet_, isDesktop_.
  rewrite !observe_matchMedia.
  unfold checkMatch, BreakpointObserver.isMatched.
  rewrite !matchMedia_browser by done.
  change "(min-width: 1024px)" with TAILWIND_BREAKPOINTS.lg.
  rewrite window_mobile, window_tablet, window_lg, window_md.
  fold w. unfold exactlyOne.
  destruct (Qle_bool_spec w 767), (Qle_bool_spec 768 w),
    (Qle_bool_spec w 1023), (Qle_bool_spec 1024 w); cbn;
    try lra; intuition (try done; try lra).
Qed.

(** C2.  In a browser window 767.5 pixels wide, which is narrower than 768,
    none of the three device signals is set: the mobile query ends at 767
    pixels and the tablet query starts at 768.  The snapshot, which tests
    the md threshold alone, says mobile. *)
Theorem device_signals_gap :
  let s :=
    construct (Examples.browserEnv Examples.edgeUA 767.5 1024 false) ∅ in
  (viewportWidth (env s) < 768)%Q ∧
  (isMobile s = false ∧ isTablet s = false ∧ isDesktop s = false) ∧
  (ResponsiveState.isMobile (state s) = true ∧
   ResponsiveState.isTablet (state s) = false ∧
   ResponsiveState.isDesktop (state s) = false).
Proof. cbn zeta. split; [by vm_compute|]. by vm_compute. Qed.

End Classification.

(** ** The snapshot *)

Section Snapshot.

Import ResponsiveService.

Implicit Types (s : t) (e : Env) (html : gset string) (evs : list Event).

(** When every delivery finds the viewport at rest (the runs of
    [dispatch]), in every snapshot the service holds, in a browser or not,
    the breakpoint and the device flags agree: desktop exactly at lg, xl
    and 2xl, tablet exactly at md, mobile exactly at xs and sm. *)
Theorem snapshot_breakpoint_agrees_with_device e html evs :
  let st := state (run evs (construct e html)) in
  let bp := ResponsiveState.breakpoint st in
  (bp = bp_lg ∨ bp = bp_xl ∨ bp = bp_2xl ↔
   ResponsiveState.isDesktop st = true) ∧
  (bp = bp_md ↔ ResponsiveState.isTablet st = true) ∧
  (bp = bp_xs ∨ bp = bp_sm ↔ ResponsiveState.isMobile st = true).
Proof.
  intros st bp. subst bp st.
  destruct (reachable_snapshotCurrent _ (reachable_run evs e html))
    as (-> & -> & -> & -> & _).
  cbn [snapshot ResponsiveState.breakpoint ResponsiveState.isMobile
         ResponsiveState.isTablet ResponsiveState.isDesktop].
  rewrite checkMatch_md_breakpoint, checkMatch_lg_breakpoint.
  destruct (currentBreakpoint_ _); cbn; intuition congruence.
Qed.

(** C10.  [detectPlatform] and the platform field of a snapshot taken in
    the same environment are equal; hence the platform signal always
    equals what [detectPlatform] returns in the current environment. *)
Theorem detectPlatform_agrees_with_snapshot e html evs :
  (∀ bp, detectPlatform e = ResponsiveState.platform (snapshot e bp)) ∧
  (let s := run evs (construct e html) in
   platform s = detectPlatform (env s)).
Proof.
  split; [intros bp; by rewrite platform_of_matches|].
  intros s. unfold platform, readState. cbn [fmap option_fmap option_map default].
  destruct (reachable_snapshotCurrent _ (reachable_run evs e html))
    as (_ & _ & _ & _ & _ & Hp & _).
  subst s. rewrite Hp. apply platform_of_matches.
Qed.

(** C5.  A snapshot whose breakpoint and device flags disagree.  A browser
    window 700 pixels wide is widened to 1100 pixels, and the CDK observes
    the breakpoint lg; before its debounced delivery reaches [state$] the
    window is narrowed to 700 pixels again.  The snapshot made by that
    delivery has the breakpoint lg with isMobile set, isDesktop clear and
    the platform mobile. *)
Theorem torn_snapshot :
  let e := Examples.browserEnv Examples.edgeUA 700 900 false in
  let wide := after (Resize 1100 900) e in
  let narrow := after (Resize 700 900) wide in
  let s := notify wide narrow (construct e ∅) in
  currentBreakpoint s = bp_lg ∧
  ResponsiveState.breakpoint (state s) = bp_lg ∧
  ResponsiveState.isMobile (state s) = true ∧
  ResponsiveState.isTablet (state s) = false ∧
  ResponsiveState.isDesktop (state s) = false ∧
  ResponsiveState.platform (state s) = mobile.
Proof. by vm_compute. Qed.

Lemma detectPlatform_server e :
  cdkIsBrowser e = false → detectPlatform e = mobile.
Proof.
  intros He. unfold detectPlatform, checkMatch, BreakpointObserver.isMatched.
  by rewrite !matchMedia_server.
Qed.

(** C4, as the code has it.  Outside a browser, at every moment: the
    orientation, touch and colour scheme flags of the snapshot are false,
    as are the orientation signals; browser and os are other; and platform
    is mobile, since a snapshot always exists and no media query matches. *)
Theorem server_defaults e html evs :
  isPlatformBrowser e = false →
  cdkIsBrowser e = false →
  let s := run evs (construct e html) in
  let st := state s in
  (ResponsiveState.isPortrait st = false ∧
   ResponsiveState.isLandscape st = false ∧
   ResponsiveState.isTouchEnabled st = false ∧
   ResponsiveState.prefersDark st = false) ∧
  (isPortrait s = false ∧ isLandscape s = false) ∧
  (ResponsiveState.browser st = browser_other ∧ browser s = browser_other) ∧
  (ResponsiveState.os st = os_other ∧ os s = os_other) ∧
  (ResponsiveState.platform st = mobile ∧ platform s = mobile).
Proof.
  intros Hp Hc s st.
  pose proof (reachable_run evs e html) as Hr. fold s in Hr.
  destruct (sameClient_run evs e html) as (Hp' & Hc' & _). fold s in Hp', Hc'.
  rewrite Hp in Hp'. rewrite Hc in Hc'.
  split; [exact (reachable_snapshotInert s Hr Hp')|].
  destruct (reachable_signalsCurrent s Hr) as (_&_&_&_&_&_&_&_& Hpo & Hla & _).
  destruct (reachable_snapshotCurrent s Hr) as (_&_&_&_&_& Hpl & Hbr & Hos).
  unfold platform, browser, os, readState.
  cbn [fmap option_fmap option_map default]. fold st.
  subst st. rewrite Hpo, Hla, Hpl, Hbr, Hos, platform_of_matches.
  unfold isPortrait_, isLandscape_. rewrite !observe_matchMedia.
  rewrite !matchMedia_server, detectPlatform_server by done.
  cbn [snapshot ResponsiveState.browser ResponsiveState.os].
  unfold detectBrowser, detectOS. by rewrite Hc'.
Qed.

Lemma server_defaults_witness :
  let s := run [Resize 1920 1080] (construct Examples.serverEnv ∅) in
  platform s = mobile ∧ browser s = browser_other ∧ os s = os_other.
Proof.
  destruct (server_defaults Examples.serverEnv ∅ [Resize 1920 1080]
              eq_refl eq_refl) as (_ & _ & (_ & Hb) & (_ & Ho) & (_ & Hp)).
  cbn zeta. split; [exact Hp|]. split; [exact Hb | exact Ho].
Defined.

(** C4, as stated, fails: on the server the platform signal, like the
    platform field of the snapshot, is mobile. *)
Lemma server_platform_is_not_desktop :
  let s := construct Examples.serverEnv ∅ in
  isPlatformBrowser (env s) = false ∧ cdkIsBrowser (env s) = false ∧
  readState s = Some (state s) ∧
  ResponsiveState.platform (state s) = mobile ∧
  platform s = mobile ∧ platform s ≠ desktop.
Proof. vm_compute. by split_and!. Qed.

End Snapshot.

(** ** The classes of the root element *)

Section Classes.

Import ResponsiveService DOMTokenList.

Implicit Types (s : t) (e : Env) (html : gset string) (c : string).

Lemma elem_of_add c tokens html :
  c ∈ add tokens html ↔ c ∈ html ∨ c ∈ tokens.
Proof. unfold add. by rewrite elem_of_union, elem_of_list_to_set. Qed.

Lemma elem_of_remove c tokens html :
  c ∈ remove tokens html ↔ c ∈ html ∧ c ∉ tokens.
Proof. unfold remove. by rewrite elem_of_difference, elem_of_list_to_set. Qed.

Lemma elem_of_toggle_eq c force html :
  c ∈ toggle c force html ↔ force = true.
Proof.
  unfold toggle. destruct force.
  - rewrite elem_of_add, list_elem_of_singleton. intuition congruence.
  - rewrite elem_of_remove, list_elem_of_singleton. intuition congruence.
Qed.

Lemma elem_of_toggle_ne c token force html :
  c ≠ token → c ∈ toggle token force html ↔ c ∈ html.
Proof.
  intros Hne. unfold toggle. destruct force.
  - rewrite elem_of_add, list_elem_of_singleton. intuition congruence.
  - rewrite elem_of_remove, list_elem_of_singleton. intuition congruence.
Qed.

Lemma elem_of_add_ne c token html :
  c ≠ token → c ∈ add [token] html ↔ c ∈ html.
Proof. intros Hne. rewrite elem_of_add, list_elem_of_singleton. intuition congruence. Qed.

(** Membership of a literal class in a literal list, by evaluation. *)
Local Ltac literal :=
  solve [ done
        | apply (bool_decide_unpack _); vm_compute; exact I ].

(** *** What each subscriber writes, and what it leaves alone *)

Lemma onBreakpoint_own bp' bp html :
  "bp-" +:+ show bp' ∈ onBreakpoint bp html ↔ bp' = bp.
Proof.
  unfold onBreakpoint. rewrite elem_of_add, elem_of_remove.
  rewrite list_elem_of_singleton. split.
  - intros [[_ Hout]|Heq].
    + destruct Hout. destruct bp'; literal.
    + by destruct bp', bp.
  - intros ->. by right.
Qed.

Lemma onBreakpoint_frame c bp html :
  c ∉ breakpointClasses → c ∈ onBreakpoint bp html ↔ c ∈ html.
Proof.
  intros Hc. unfold onBreakpoint.
  rewrite elem_of_add, elem_of_remove, list_elem_of_singleton.
  split; [|by left]. intros [[? _]| ->]; [done|].
  destruct Hc. destruct bp; literal.
Qed.

Lemma onMobile_frame c m html : c ≠ "mobile" → c ∈ onMobile m html ↔ c ∈ html.
Proof. apply elem_of_toggle_ne. Qed.

Lemma onTablet_frame c m html : c ≠ "tablet" → c ∈ onTablet m html ↔ c ∈ html.
Proof. apply elem_of_toggle_ne. Qed.

Lemma onDesktop_frame c m html :
  c ≠ "desktop" → c ∈ onDesktop m html ↔ c ∈ html.
Proof. apply elem_of_toggle_ne. Qed.

Lemma onPortrait_frame c m html :
  c ≠ "orientation-portrait" → c ≠ "orientation-landscape" →
  c ∈ onPortrait m html ↔ c ∈ html.
Proof.
  intros. unfold onPortrait. by rewrite !elem_of_toggle_ne.
Qed.

Lemma onPortrait_portrait m html :
  "orientation-portrait" ∈ onPortrait m html ↔ m = true.
Proof.
  unfold onPortrait. rewrite elem_of_toggle_ne by done.
  apply elem_of_toggle_eq.
Qed.

Lemma onPortrait_landscape m html :
  "orientation-landscape" ∈ onPortrait m html ↔ m = false.
Proof.
  unfold onPortrait. rewrite elem_of_toggle_eq. by destruct m.
Qed.

Lemma updateColorScheme_frame c m html :
  c ≠ "prefers-dark" → c ≠ "prefers-light" →
  c ∈ updateColorScheme m html ↔ c ∈ html.
Proof.
  intros. unfold updateColorScheme. by rewrite !elem_of_toggle_ne.
Qed.

Lemma updateColorScheme_dark m html :
  "prefers-dark" ∈ updateColorScheme m html ↔ m = true.
Proof.
  unfold updateColorScheme. rewrite elem_of_toggle_ne by done.
  apply elem_of_toggle_eq.
Qed.

Lemma updateColorScheme_light m html :
  "prefers-light" ∈ updateColorScheme m html ↔ m = false.
Proof.
  unfold updateColorScheme. rewrite elem_of_toggle_eq. by destruct m.
Qed.

(** *** Delivery *)

Lemma deliver_frame {A} `{EqDecision A} (last next : A) f c html :
  (∀ v h, c ∈ f v h ↔ c ∈ h) →
  c ∈ deliver last next f html ↔ c ∈ html.
Proof. intros Hf. unfold deliver. by case_decide. Qed.

Lemma deliver_own {A} `{EqDecision A} (P : A → Prop) (last next : A) f c html :
  (∀ v h, c ∈ f v h ↔ P v) →
  (c ∈ html ↔ P last) →
  c ∈ deliver last next f html ↔ P next.
Proof. intros Hf Hlast. unfold deliver. case_decide; by subst. Qed.

(** *** Static and reactive classes *)

Lemma static_not_reactive c : c ∈ staticClasses → c ∉ reactiveClasses.
Proof.
  revert c. apply Forall_forall.
  apply (bool_decide_unpack _). vm_compute. exact I.
Qed.

Lemma reactive_not_static c : c ∈ reactiveClasses → c ∉ staticClasses.
Proof. intros Hr Hs. by apply (static_not_reactive c). Qed.

Lemma platform_class_static (p : Platform) :
  "platform-" +:+ show p ∈ staticClasses.
Proof. destruct p; literal. Qed.

Lemma browser_class_static (b : Browser) :
  "browser-" +:+ show b ∈ staticClasses.
Proof. destruct b; literal. Qed.

Lemma os_class_static (o : OS) : "os-" +:+ show o ∈ staticClasses.
Proof. destruct o; literal. Qed.

Lemma breakpoint_class_reactive (bp : TailwindBreakpoint) :
  "bp-" +:+ show bp ∈ reactiveClasses.
Proof. destruct bp; literal. Qed.

(** What a class outside the reactive ones is different from. *)
Lemma not_reactive c :
  c ∉ reactiveClasses →
  (c ∉ breakpointClasses) ∧ c ≠ "mobile" ∧ c ≠ "tablet" ∧ c ≠ "desktop" ∧
  c ≠ "orientation-portrait" ∧ c ≠ "orientation-landscape" ∧
  c ≠ "prefers-dark" ∧ c ≠ "prefers-light".
Proof.
  unfold reactiveClasses. rewrite not_elem_of_app, !not_elem_of_cons.
  tauto.
Qed.

(** No change notification touches a class outside the reactive ones. *)
Lemma dispatch_frame c ev s :
  c ∉ reactiveClasses →
  c ∈ classList (dispatch ev s) ↔ c ∈ classList s.
Proof.
  intros Hc. apply not_reactive in Hc as (? & ? & ? & ? & ? & ? & ? & ?).
  cbn [classList dispatch notify]. destruct (isPlatformBrowser (env s)); [|done].
  rewrite !deliver_frame; [done|intros ..].
  - by apply onBreakpoint_frame.
  - by apply onMobile_frame.
  - by apply onTablet_frame.
  - by apply onDesktop_frame.
  - by apply onPortrait_frame.
  - by apply updateColorScheme_frame.
Qed.

Lemma run_frame c evs s :
  c ∉ reactiveClasses →
  c ∈ classList (run evs s) ↔ c ∈ classList s.
Proof.
  intros Hc. induction evs as [|ev evs IH] using rev_ind; [done|].
  by rewrite run_snoc, dispatch_frame.
Qed.

Lemma applyStatic_frame c e html :
  c ∉ staticClasses → c ∈ applyStatic e html ↔ c ∈ html.
Proof.
  intros Hc. unfold applyStatic.
  assert (∀ t, t ∈ staticClasses → c ≠ t) as Hne by (by intros t ? ->).
  rewrite !elem_of_toggle_ne, !elem_of_add_ne; [done|apply Hne ..].
  - apply platform_class_static.
  - apply browser_class_static.
  - apply os_class_static.
  - literal.
  - literal.
Qed.

Lemma classList_construct e html :
  isPlatformBrowser e = true →
  classList (construct e html) =
  updateColorScheme (colorSchemeDark e)
    (applyStatic e
       (onPortrait (isPortrait_ e)
          (onDesktop (isDesktop_ e)
             (onTablet (isTablet_ e)
                (onMobile (isMobile_ e)
                   (onBreakpoint (currentBreakpoint_ e) html)))))).
Proof.
  intros He. unfold construct. rewrite He.
  cbn -[updateColorScheme onPortrait onDesktop onTablet onMobile
        onBreakpoint window_matchMedia toggle add].
  by rewrite window_dark.
Qed.

(** Strips the subscribers that leave the literal class of the goal
    alone. *)
Local Ltac peel :=
  repeat first
    [ rewrite updateColorScheme_frame by literal
    | rewrite applyStatic_frame by (apply reactive_not_static; literal)
    | rewrite onPortrait_frame by literal
    | rewrite onDesktop_frame by literal
    | rewrite onTablet_frame by literal
    | rewrite onMobile_frame by literal
    | rewrite onBreakpoint_frame by literal ].

Local Ltac frame_of_handler :=
  intros;
  first [ apply onBreakpoint_frame | apply onMobile_frame
        | apply onTablet_frame | apply onDesktop_frame
        | apply onPortrait_frame | apply updateColorScheme_frame ];
  literal.

Local Ltac peel_deliver := repeat (rewrite deliver_frame by frame_of_handler).

(** After construction in a browser the reactive classes show the
    environment. *)
Lemma construct_classesSynced e html :
  isPlatformBrowser e = true → classesSynced (construct e html).
Proof.
  intros He. unfold classesSynced.
  rewrite env_construct, classList_construct by done. cbn zeta.
  split_and!.
  - intros bp. destruct bp; peel; apply onBreakpoint_own.
  - peel. apply elem_of_toggle_eq.
  - peel. apply elem_of_toggle_eq.
  - peel. apply elem_of_toggle_eq.
  - peel. apply onPortrait_portrait.
  - peel. apply onPortrait_landscape.
  - apply updateColorScheme_dark.
  - apply updateColorScheme_light.
Qed.

(** A change notification keeps them so. *)
Lemma dispatch_classesSynced ev s :
  isPlatformBrowser (env s) = true →
  signalsCurrent s → classesSynced s → classesSynced (dispatch ev s).
Proof.
  intros He (_&_&_&_&_& Hm & Ht & Hd & Hp & _ & Hbp).
  intros (Sbp & Sm & St & Sd & Sp & Sl & Sdk & Slt).
  unfold classesSynced. rewrite env_dispatch.
  cbn [classList dispatch notify]. rewrite He, Hm, Ht, Hd, Hp, Hbp, !window_dark.
  cbn zeta. split_and!.
  - intros bp. generalize (Sbp bp). destruct bp; intros Hold; peel_deliver;
      by apply (deliver_own (λ v, _ = v)); [apply onBreakpoint_own|].
  - peel_deliver. apply (deliver_own (λ v, v = true));
      [intros; apply elem_of_toggle_eq|]. by peel_deliver.
  - peel_deliver. apply (deliver_own (λ v, v = true));
      [intros; apply elem_of_toggle_eq|]. by peel_deliver.
  - peel_deliver. apply (deliver_own (λ v, v = true));
      [intros; apply elem_of_toggle_eq|]. by peel_deliver.
  - peel_deliver. apply (deliver_own (λ v, v = true));
      [intros; apply onPortrait_portrait|]. by peel_deliver.
  - peel_deliver. apply (deliver_own (λ v, v = false));
      [intros; apply onPortrait_landscape|]. by peel_deliver.
  - apply (deliver_own (λ v, v = true));
      [intros; apply updateColorScheme_dark|]. by peel_deliver.
  - apply (deliver_own (λ v, v = false));
      [intros; apply updateColorScheme_light|]. by peel_deliver.
Qed.

Lemma reachable_classesSynced s :
  reachable s → isPlatformBrowser (env s) = true → classesSynced s.
Proof.
  induction 1 as [e html|ev s Hs IH].
  - rewrite env_construct. apply construct_classesSynced.
  - rewrite env_dispatch. intros He.
    assert (isPlatformBrowser (env s) = true) as He0
      by (by destruct (sameClient_after ev (env s)) as (<- & _)).
    apply dispatch_classesSynced; auto using reachable_signalsCurrent.
Qed.

Lemma classList_construct_static c e html :
  isPlatformBrowser e = true → c ∈ staticClasses →
  c ∈ classList (construct e html) ↔ c ∈ applyStatic e html.
Proof.
  intros He Hc. rewrite classList_construct by done.
  apply static_not_reactive, not_reactive in Hc
    as (? & ? & ? & ? & ? & ? & ? & ?).
  rewrite updateColorScheme_frame by done.
  unfold applyStatic.
  assert (∀ h,
    c ∈ onPortrait (isPortrait_ e)
          (onDesktop (isDesktop_ e)
             (onTablet (isTablet_ e)
                (onMobile (isMobile_ e)
                   (onBreakpoint (currentBreakpoint_ e) h)))) ↔ c ∈ h) as Hin.
  { intros h. by rewrite onPortrait_frame, onDesktop_frame, onTablet_frame,
      onMobile_frame, onBreakpoint_frame. }
  unfold toggle.
  repeat (case_match; rewrite ?elem_of_add, ?elem_of_remove);
    rewrite ?elem_of_add, Hin; tauto.
Qed.

(** C8.  In a browser: construction puts the platform, browser, os and
    touch classes on the root element; no later change notification adds
    or removes any class of these four families, whatever the viewport
    becomes; and the breakpoint, device, orientation and colour scheme
    classes show the current environment after every notification. *)
Theorem static_classes_applied_once e html evs :
  isPlatformBrowser e = true →
  let s0 := construct e html in
  let s := run evs s0 in
  ("platform-" +:+ show (detectPlatform e) ∈ classList s0 ∧
   "browser-" +:+ show (detectBrowser e) ∈ classList s0 ∧
   "os-" +:+ show (detectOS e) ∈ classList s0 ∧
   ("touch-enabled" ∈ classList s0 ↔ detectTouch e = true) ∧
   ("touch-disabled" ∈ classList s0 ↔ detectTouch e = false)) ∧
  (∀ c, c ∈ staticClasses → c ∈ classList s ↔ c ∈ classList s0) ∧
  classesSynced s.
Proof.
  intros He s0 s. split_and!.
  - subst s0. rewrite classList_construct_static
      by auto using platform_class_static.
    unfold applyStatic. rewrite !elem_of_toggle_ne, !elem_of_add.
    + left. left. right. by apply list_elem_of_singleton.
    + by destruct (detectPlatform e).
    + by destruct (detectPlatform e).
  - subst s0. rewrite classList_construct_static
      by auto using browser_class_static.
    unfold applyStatic. rewrite !elem_of_toggle_ne, !elem_of_add.
    + left. right. by apply list_elem_of_singleton.
    + by destruct (detectBrowser e).
    + by destruct (detectBrowser e).
  - subst s0. rewrite classList_construct_static
      by auto using os_class_static.
    unfold applyStatic. rewrite !elem_of_toggle_ne, !elem_of_add.
    + right. by apply list_elem_of_singleton.
    + by destruct (detectOS e).
    + by destruct (detectOS e).
  - subst s0. rewrite classList_construct_static by (done || literal).
    unfold applyStatic. rewrite elem_of_toggle_ne by done.
    apply elem_of_toggle_eq.
  - subst s0. rewrite classList_construct_static by (done || literal).
    unfold applyStatic. rewrite elem_of_toggle_eq.
    by destruct (detectTouch e).
  - intros c Hc. apply run_frame. by apply static_not_reactive.
  - apply reachable_classesSynced; [apply reachable_run|].
    destruct (sameClient_run evs e html) as (Hp & _).
    subst s s0. by rewrite Hp.
Qed.

Lemma static_classes_applied_once_witness :
  let s := run [Resize 1300 700] (construct Examples.iphoneEnv ∅) in
  "platform-mobile" ∈ classList s ∧ "bp-xl" ∈ classList s.
Proof.
  destruct (static_classes_applied_once Examples.iphoneEnv ∅
              [Resize 1300 700] eq_refl)
    as ((Hp & _) & Hstatic & (Hbp & _)).
  cbn zeta. split.
  - apply Hstatic; [literal|exact Hp].
  - by apply (Hbp bp_xl).
Defined.

(** The platform class does go stale: the window of the example grows
    from mobile to desktop width and the class stays what it was. *)
Example platform_class_goes_stale :
  let s := run [Resize 1300 700] (construct Examples.iphoneEnv ∅) in
  detectPlatform (env s) = desktop ∧
  "platform-mobile" ∈ classList s ∧ "platform-desktop" ∉ classList s.
Proof. cbn zeta. split_and!; [reflexivity|literal|literal]. Qed.

(** *** The colour scheme *)

Lemma currentBreakpoint_colorScheme dark e :
  currentBreakpoint_ (after (ColorSchemeChange dark) e) =
  currentBreakpoint_ e.
Proof. reflexivity. Qed.

(** A change of the colour scheme never produces a snapshot. *)
Lemma colorScheme_change_keeps_snapshot dark s :
  reachable s → state (dispatch (ColorSchemeChange dark) s) = state s.
Proof.
  intros (_&_&_&_&_&_&_&_&_&_& Hbp)%reachable_signalsCurrent.
  cbn [state dispatch notify].
  rewrite currentBreakpoint_colorScheme, Hbp. by case_decide.
Qed.

(** From light to dark, prefers-light gives way to prefers-dark and no
    other class changes. *)
Lemma colorScheme_dark_classes s c :
  reachable s → isPlatformBrowser (env s) = true →
  colorSchemeDark (env s) = false →
  c ∈ classList (dispatch (ColorSchemeChange true) s) ↔
  c = "prefers-dark" ∨ (c ≠ "prefers-light" ∧ c ∈ classList s).
Proof.
  intros Hs He Hlight.
  destruct (reachable_signalsCurrent s Hs)
    as (_&_&_&_&_& Hm & Ht & Hd & Hp & _ & Hbp).
  cbn [classList dispatch notify].
  rewrite He, Hm, Ht, Hd, Hp, Hbp, !window_dark, Hlight.
  unfold deliver at 1. rewrite decide_False by done.
  unfold deliver. rewrite !decide_True by done.
  change (colorSchemeDark (after (ColorSchemeChange true) (env s)))
    with true.
  unfold updateColorScheme, toggle. cbn [negb].
  rewrite elem_of_remove, elem_of_add, !list_elem_of_singleton.
  destruct (decide (c = "prefers-dark")) as [->|]; [|tauto].
  split; [by left|]. intros _. split; [by right|done].
Qed.

(** C3, on a window that opens with the light scheme, when the system
    switches to dark: the classes change as claimed, and the snapshot does
    not: its prefersDark is still false. *)
Theorem colorScheme_toggle_stale_snapshot :
  let s := construct (Examples.browserEnv Examples.edgeUA 1920 1080 false) ∅ in
  let s' := dispatch (ColorSchemeChange true) s in
  (colorSchemeDark (env s) = false ∧ colorSchemeDark (env s') = true) ∧
  ("prefers-light" ∈ classList s ∧ "prefers-dark" ∉ classList s) ∧
  classList s' = classList s ∖ {["prefers-light"]} ∪ {["prefers-dark"]} ∧
  ResponsiveState.prefersDark (state s) = false ∧
  ResponsiveState.prefersDark (state s') = false.
Proof.
  cbn zeta. split_and!; try reflexivity; try literal.
Qed.

End Classes.

(** * Further properties of the service *)

(** ** The signals *)

Section Signals.

Import ResponsiveService.

Implicit Types (s : t) (e : Env) (html : gset string) (evs : list Event).

Lemma cdkIsBrowser_run evs e html :
  cdkIsBrowser (env (run evs (construct e html))) = cdkIsBrowser e.
Proof. by destruct (sameClient_run evs e html) as (_ & ? & _). Qed.

Lemma isPlatformBrowser_run evs e html :
  isPlatformBrowser (env (run evs (construct e html))) = isPlatformBrowser e.
Proof. by destruct (sameClient_run evs e html) as (? & _). Qed.

(** The five breakpoint signals, by the five results that
    [currentBreakpoint$] reads. *)
Lemma breakpoint_sources e :
  currentBreakpoint_ e =
  if is2xl_ e then bp_2xl
  else if isXl_ e then bp_xl
  else if isLg_ e then bp_lg
  else if isMd_ e then bp_md
  else if isSm_ e then bp_sm
  else bp_xs.
Proof.
  unfold is2xl_, isXl_, isLg_, isMd_, isSm_. rewrite !observe_matchMedia.
  apply currentBreakpoint_matchMedia.
Qed.

(** X1.  In a browser, at every moment, each breakpoint signal says that the
    viewport is at least as wide as its threshold; in every environment the
    signals are nested, a larger breakpoint implying the smaller ones. *)
Theorem breakpoint_signals_thresholds e html evs :
  let s := run evs (construct e html) in
  let w := viewportWidth (env s) in
  (cdkIsBrowser e = true →
   (isSm s = true ↔ (640 <= w)%Q) ∧ (isMd s = true ↔ (768 <= w)%Q) ∧
   (isLg s = true ↔ (1024 <= w)%Q) ∧ (isXl s = true ↔ (1280 <= w)%Q) ∧
   (is2xl s = true ↔ (1536 <= w)%Q)) ∧
  (is2xl s = true → isXl s = true) ∧ (isXl s = true → isLg s = true) ∧
  (isLg s = true → isMd s = true) ∧ (isMd s = true → isSm s = true).
Proof.
  intros s w.
  destruct (reachable_signalsCurrent s (reachable_run evs e html))
    as (-> & -> & -> & -> & -> & _).
  unfold isSm_, isMd_, isLg_, isXl_, is2xl_. rewrite !observe_matchMedia.
  pose proof (cdkIsBrowser_run evs e html) as Hc. fold s in Hc.
  destruct (cdkIsBrowser e) eqn:He.
  - rewrite !matchMedia_browser by done.
    rewrite window_sm, window_md, window_lg, window_xl, window_2xl. fold w.
    rewrite !Qle_bool_iff. split; [done|]. split_and!; intros; lra.
  - rewrite !matchMedia_server by done. by split.
Qed.

Lemma breakpoint_signals_thresholds_witness :
  let s := run [Resize 1024 768]
             (construct (Examples.browserEnv Examples.edgeUA 500 800 false) ∅) in
  isLg s = true ∧ isXl s = false.
Proof.
  destruct (breakpoint_signals_thresholds
              (Examples.browserEnv Examples.edgeUA 500 800 false) ∅
              [Resize 1024 768]) as [H _].
  destruct (H eq_refl) as (_ & _ & Hlg & Hxl & _).
  change (viewportWidth _) with 1024%Q in *.
  cbn zeta. split.
  - apply Hlg. lra.
  - apply not_true_is_false. rewrite Hxl. lra.
Defined.

(** X2.  In every environment, at every moment, currentBreakpoint is the
    largest breakpoint whose signal is set, and xs when none is: the signal
    computed from the five queries together agrees with the five signals
    computed one query at a time. *)
Theorem currentBreakpoint_largest_signal e html evs :
  let s := run evs (construct e html) in
  currentBreakpoint s =
  if is2xl s then bp_2xl
  else if isXl s then bp_xl
  else if isLg s then bp_lg
  else if isMd s then bp_md
  else if isSm s then bp_sm
  else bp_xs.
Proof.
  intros s.
  destruct (reachable_signalsCurrent s (reachable_run evs e html))
    as (-> & -> & -> & -> & -> & _ & _ & _ & _ & _ & ->).
  apply breakpoint_sources.
Qed.

(** X3.  In a browser, at every moment, the viewport is portrait exactly
    when it is at least as high as wide, landscape otherwise, and so exactly
    one of the two orientation signals is set. *)
Theorem orientation_signals e html evs :
  cdkIsBrowser e = true →
  let s := run evs (construct e html) in
  (isPortrait s = true ↔
   (viewportWidth (env s) <= viewportHeight (env s))%Q) ∧
  (isLandscape s = true ↔
   (viewportHeight (env s) < viewportWidth (env s))%Q) ∧
  isLandscape s = negb (isPortrait s).
Proof.
  intros He s.
  destruct (reachable_signalsCurrent s (reachable_run evs e html))
    as (_&_&_&_&_&_&_&_& -> & -> & _).
  pose proof (cdkIsBrowser_run evs e html) as Hc. fold s in Hc.
  rewrite He in Hc.
  unfold isPortrait_, isLandscape_. rewrite !observe_matchMedia.
  rewrite !matchMedia_browser, window_portrait, window_landscape by done.
  rewrite Qle_bool_iff, negb_Qle_bool. by split_and!.
Qed.

Lemma orientation_signals_witness :
  let s := run [Resize 600 600]
             (construct (Examples.browserEnv Examples.edgeUA 1920 1080 false) ∅) in
  isPortrait s = true ∧ isLandscape s = false.
Proof.
  destruct (orientation_signals
              (Examples.browserEnv Examples.edgeUA 1920 1080 false) ∅
              [Resize 600 600] eq_refl) as (Hp & _ & Hl).
  change (viewportWidth _) with 600%Q in *.
  change (viewportHeight _) with 600%Q in *.
  cbn zeta.
  assert (isPortrait
            (run [Resize 600 600]
               (construct (Examples.browserEnv Examples.edgeUA 1920 1080 false)
                  ∅)) = true) as Hport by (apply Hp; lra).
  split; [exact Hport|]. by rewrite Hl, Hport.
Defined.

(** X6.  Where the CDK sees no browser, at every moment, all ten boolean
    signals are false and currentBreakpoint is xs; the snapshot none the
    less says mobile, so the isMobile signal and the isMobile field of the
    snapshot differ there. *)
Theorem server_signals e html evs :
  cdkIsBrowser e = false →
  let s := run evs (construct e html) in
  (isSm s = false ∧ isMd s = false ∧ isLg s = false ∧ isXl s = false ∧
   is2xl s = false) ∧
  (isMobile s = false ∧ isTablet s = false ∧ isDesktop s = false) ∧
  (isPortrait s = false ∧ isLandscape s = false) ∧
  currentBreakpoint s = bp_xs ∧
  (ResponsiveState.breakpoint (state s) = bp_xs ∧
   ResponsiveState.isMobile (state s) = true ∧
   ResponsiveState.isTablet (state s) = false ∧
   ResponsiveState.isDesktop (state s) = false).
Proof.
  intros He s.
  pose proof (reachable_run evs e html) as Hr. fold s in Hr.
  pose proof (cdkIsBrowser_run evs e html) as Hc. fold s in Hc.
  rewrite He in Hc.
  destruct (reachable_signalsCurrent s Hr)
    as (-> & -> & -> & -> & -> & -> & -> & -> & -> & -> & ->).
  destruct (reachable_snapshotCurrent s Hr) as (-> & -> & -> & -> & _).
  cbn [snapshot ResponsiveState.breakpoint ResponsiveState.isMobile
         ResponsiveState.isTablet ResponsiveState.isDesktop].
  unfold isSm_, isMd_, isLg_, isXl_, is2xl_, isMobile_, isTablet_,
    isDesktop_, isPortrait_, isLandscape_, checkMatch,
    BreakpointObserver.isMatched.
  rewrite !observe_matchMedia, currentBreakpoint_server by done.
  by rewrite !matchMedia_server.
Qed.

Lemma server_signals_witness :
  let s := run [Resize 1920 1080] (construct Examples.serverEnv ∅) in
  isMobile s = false ∧ ResponsiveState.isMobile (state s) = true.
Proof.
  destruct (server_signals Examples.serverEnv ∅ [Resize 1920 1080] eq_refl)
    as (_ & (Hm & _) & _ & _ & (_ & Hsm & _)).
  cbn zeta. split; [exact Hm | exact Hsm].
Defined.

(** X12.  In a browser, widening the viewport never lowers the breakpoint
    and narrowing it never raises it. *)
Theorem currentBreakpoint_monotone e html evs w h :
  cdkIsBrowser e = true →
  let s := run evs (construct e html) in
  let s' := dispatch (Resize w h) s in
  ((viewportWidth (env s) <= w)%Q →
   (rank (currentBreakpoint s) ≤ rank (currentBreakpoint s'))%nat) ∧
  ((w <= viewportWidth (env s))%Q →
   (rank (currentBreakpoint s') ≤ rank (currentBreakpoint s))%nat).
Proof.
  intros He s s'.
  pose proof (cdkIsBrowser_run evs e html) as Hc. fold s in Hc.
  rewrite He in Hc.
  destruct (reachable_signalsCurrent s (reachable_run evs e html))
    as (_&_&_&_&_&_&_&_&_&_& ->).
  subst s'. cbn [currentBreakpoint dispatch notify].
  rewrite !currentBreakpoint_browser by (done || by destruct e).
  cbn [after viewportWidth]. cbn zeta.
  split; intros Hw; width_cases; cbn; lia.
Qed.

Lemma currentBreakpoint_monotone_witness :
  let s := construct (Examples.browserEnv Examples.edgeUA 800 600 false) ∅ in
  (rank (currentBreakpoint s)
   ≤ rank (currentBreakpoint (dispatch (Resize 1300 600) s)))%nat.
Proof.
  destruct (currentBreakpoint_monotone
              (Examples.browserEnv Examples.edgeUA 800 600 false) ∅ []
              1300 600 eq_refl) as [Hup _].
  apply Hup. change (viewportWidth _) with 800%Q. lra.
Defined.



End Signals.

(** ** OS detection, in full *)

Section DetectionOrder.

Import ResponsiveService.

Local Ltac ci_to_bool :=
  repeat match goal with
    | H : containsCI _ _ |- _ => apply includes_toLowerCase in H
    | H : ¬ containsCI _ _ |- _ => apply includes_toLowerCase_false in H
    end.

Local Ltac use_includes :=
  repeat match goal with
    | H : includes _ _ = _ |- _ => rewrite H; clear H
    end.

(** X10.  Outside a browser the OS is other.  In a browser the patterns are
    tried in the order win, mac, linux, iphone or ipad, android, and the
    first that occurs decides: so a user agent with "linux" in it is linux
    even if "android" occurs too, one with "mac" in it is macos even if
    "ipad" occurs too, and the OS is other when no pattern occurs. *)
Theorem detectOS_precedence (e : Env) :
  (cdkIsBrowser e = false → detectOS e = os_other) ∧
  (cdkIsBrowser e = true →
   let ua := userAgent e in
   (containsCI ua "win" → detectOS e = windows) ∧
   (¬ containsCI ua "win" → containsCI ua "mac" → detectOS e = macos) ∧
   (¬ containsCI ua "win" → ¬ containsCI ua "mac" →
    containsCI ua "linux" → detectOS e = linux) ∧
   (¬ containsCI ua "win" → ¬ containsCI ua "mac" →
    ¬ containsCI ua "linux" →
    containsCI ua "iphone" ∨ containsCI ua "ipad" → detectOS e = ios) ∧
   (¬ containsCI ua "win" → ¬ containsCI ua "mac" →
    ¬ containsCI ua "linux" → ¬ containsCI ua "iphone" →
    ¬ containsCI ua "ipad" → containsCI ua "android" →
    detectOS e = android) ∧
   (¬ containsCI ua "win" → ¬ containsCI ua "mac" →
    ¬ containsCI ua "linux" → ¬ containsCI ua "iphone" →
    ¬ containsCI ua "ipad" → ¬ containsCI ua "android" →
    detectOS e = os_other)).
Proof.
  unfold detectOS. split; intros ->; [done|].
  cbn [negb]. split_and!; intros; ci_to_bool.
  - by use_includes.
  - by use_includes.
  - by use_includes.
  - match goal with H : _ ∨ _ |- _ => destruct H end; ci_to_bool;
      use_includes; [done|]. by rewrite orb_true_r.
  - by use_includes.
  - by use_includes.
Qed.

Lemma detectOS_precedence_witness :
  containsCI Examples.androidUA "android" ∧
  detectOS (Examples.browserEnv Examples.androidUA 412 915 false) = linux.
Proof.
  split; [apply includes_toLowerCase; vm_compute; reflexivity|].
  refine (proj1 (proj2 (proj2 (proj2
            (detectOS_precedence
               (Examples.browserEnv Examples.androidUA 412 915 false))
            eq_refl))) _ _ _).
  - apply includes_toLowerCase_false. vm_compute. reflexivity.
  - apply includes_toLowerCase_false. vm_compute. reflexivity.
  - apply includes_toLowerCase. vm_compute. reflexivity.
Defined.

End DetectionOrder.

(** ** The whole class list *)

Section ClassList.

Import ResponsiveService DOMTokenList.

Implicit Types (s : t) (e : Env) (html : gset string) (c : string)
  (evs : list Event).

Local Ltac literal :=
  solve [ done
        | apply (bool_decide_unpack _); vm_compute; exact I ].

Lemma elem_of_toggle c token force html :
  c ∈ toggle token force html ↔
  (c = token ∧ force = true) ∨ (c ≠ token ∧ c ∈ html).
Proof.
  destruct (decide (c = token)) as [->|Hne].
  - rewrite elem_of_toggle_eq. intuition congruence.
  - rewrite elem_of_toggle_ne by done. intuition congruence.
Qed.

Lemma staticOn_static c e : c ∈ staticOn e → c ∈ staticClasses.
Proof.
  unfold staticOn. rewrite !elem_of_cons, elem_of_nil.
  intros [->|[->|[->|[->|[]]]]].
  - apply platform_class_static.
  - apply browser_class_static.
  - apply os_class_static.
  - destruct (detectTouch e); literal.
Qed.

(** What the run-once part of [applyClassesToHtml] leaves on the element. *)
Lemma elem_of_applyStatic c e html :
  c ∈ applyStatic e html ↔
  c ∈ staticOn e ∨
  (c ≠ "touch-enabled" ∧ c ≠ "touch-disabled" ∧ c ∈ html).
Proof.
  unfold applyStatic, staticOn.
  set (P := "platform-" +:+ show (detectPlatform e)).
  set (B := "browser-" +:+ show (detectBrowser e)).
  set (O := "os-" +:+ show (detectOS e)).
  assert (P ≠ "touch-enabled" ∧ P ≠ "touch-disabled") as [??]
    by (subst P; by destruct (detectPlatform e)).
  assert (B ≠ "touch-enabled" ∧ B ≠ "touch-disabled") as [??]
    by (subst B; by destruct (detectBrowser e)).
  assert (O ≠ "touch-enabled" ∧ O ≠ "touch-disabled") as [??]
    by (subst O; by destruct (detectOS e)).
  clearbody P B O.
  rewrite !elem_of_toggle, !elem_of_add, !elem_of_cons, !elem_of_nil.
  destruct (decide (c = "touch-enabled")), (decide (c = "touch-disabled")),
    (detectTouch e); cbn [negb]; intuition (congruence || discriminate).
Qed.

Lemma classList_construct_frame c e html :
  isPlatformBrowser e = true → c ∉ reactiveClasses →
  c ∈ classList (construct e html) ↔ c ∈ applyStatic e html.
Proof.
  intros He Hc. rewrite classList_construct by done.
  apply not_reactive in Hc as (? & ? & ? & ? & ? & ? & ? & ?).
  rewrite updateColorScheme_frame by done.
  rewrite !elem_of_applyStatic.
  by rewrite onPortrait_frame, onDesktop_frame, onTablet_frame,
    onMobile_frame, onBreakpoint_frame.
Qed.

Lemma elem_of_if_singleton c (b : bool) (x : string) :
  c ∈ (if b then [x] else []) ↔ c = x ∧ b = true.
Proof.
  destruct b; rewrite ?list_elem_of_singleton, ?elem_of_nil;
    intuition discriminate.
Qed.

Lemma elem_of_singleton_if c (b : bool) (x y : string) :
  c ∈ [if b then x else y] ↔ (c = x ∧ b = true) ∨ (c = y ∧ b = false).
Proof.
  rewrite list_elem_of_singleton. destruct b; intuition discriminate.
Qed.

Lemma elem_of_reactiveOn c e :
  c ∈ reactiveOn e ↔
  c = "bp-" +:+ show (currentBreakpoint_ e) ∨
  (c = "mobile" ∧ isMobile_ e = true) ∨
  (c = "tablet" ∧ isTablet_ e = true) ∨
  (c = "desktop" ∧ isDesktop_ e = true) ∨
  ((c = "orientation-portrait" ∧ isPortrait_ e = true) ∨
   (c = "orientation-landscape" ∧ isPortrait_ e = false)) ∨
  ((c = "prefers-dark" ∧ colorSchemeDark e = true) ∨
   (c = "prefers-light" ∧ colorSchemeDark e = false)).
Proof.
  unfold reactiveOn.
  by rewrite !elem_of_app, !elem_of_if_singleton, !elem_of_singleton_if,
    list_elem_of_singleton.
Qed.

(** Settles [literal class ∈ reactiveOn e ↔ condition] once the breakpoint
    is known. *)
Local Ltac settle :=
  rewrite elem_of_reactiveOn;
  split;
  [ intros H;
    repeat match type of H with
      | _ ∨ _ => destruct H as [H|H]
      | _ ∧ _ => destruct H as [H ?]
      end;
    first [discriminate H | done]
  | intros H; first [discriminate H | rewrite H; tauto | tauto] ].

(** The list [reactiveOn] meets the conditions that [classesSynced] puts
    on a class list. *)
Lemma reactiveOn_conditions e :
  (∀ bp, "bp-" +:+ show bp ∈ reactiveOn e ↔ bp = currentBreakpoint_ e) ∧
  ("mobile" ∈ reactiveOn e ↔ isMobile_ e = true) ∧
  ("tablet" ∈ reactiveOn e ↔ isTablet_ e = true) ∧
  ("desktop" ∈ reactiveOn e ↔ isDesktop_ e = true) ∧
  ("orientation-portrait" ∈ reactiveOn e ↔ isPortrait_ e = true) ∧
  ("orientation-landscape" ∈ reactiveOn e ↔ isPortrait_ e = false) ∧
  ("prefers-dark" ∈ reactiveOn e ↔ colorSchemeDark e = true) ∧
  ("prefers-light" ∈ reactiveOn e ↔ colorSchemeDark e = false).
Proof.
  split_and!.
  - intros bp. destruct bp, (currentBreakpoint_ e) eqn:Hbp;
      rewrite elem_of_reactiveOn, Hbp;
      (split;
       [ intros H;
         repeat match type of H with
           | _ ∨ _ => destruct H as [H|H]
           | _ ∧ _ => destruct H as [H ?]
           end;
         first [discriminate H | done]
       | intros H; first [discriminate H | by left] ]).
  - destruct (currentBreakpoint_ e) eqn:Hbp; settle.
  - destruct (currentBreakpoint_ e) eqn:Hbp; settle.
  - destruct (currentBreakpoint_ e) eqn:Hbp; settle.
  - destruct (currentBreakpoint_ e) eqn:Hbp; settle.
  - destruct (currentBreakpoint_ e) eqn:Hbp; settle.
  - destruct (currentBreakpoint_ e) eqn:Hbp; settle.
  - destruct (currentBreakpoint_ e) eqn:Hbp; settle.
Qed.

Lemma reactiveOn_reactive c e : c ∈ reactiveOn e → c ∈ reactiveClasses.
Proof.
  rewrite elem_of_reactiveOn.
  intros [->|[[-> _]|[[-> _]|[[-> _]|[[[-> _]|[-> _]]|[[-> _]|[-> _]]]]]]];
    [apply breakpoint_class_reactive|literal..].
Qed.

(** A synced class list has a reactive class exactly when the environment
    calls for it. *)
Lemma classesSynced_reactiveOn s c :
  classesSynced s → c ∈ reactiveClasses →
  c ∈ classList s ↔ c ∈ reactiveOn (env s).
Proof.
  intros (Sbp & Sm & St & Sd & Sp & Sl & Sdk & Slt) Hc.
  destruct (reactiveOn_conditions (env s))
    as (Rbp & Rm & Rt & Rd & Rp & Rl & Rdk & Rlt).
  unfold reactiveClasses, breakpointClasses in Hc.
  rewrite elem_of_app, !elem_of_cons, !elem_of_nil in Hc.
  destruct Hc as [[->|[->|[->|[->|[->|[->|[]]]]]]]
                 |[->|[->|[->|[->|[->|[->|[->|[]]]]]]]]].
  - by rewrite (Sbp bp_xs), (Rbp bp_xs).
  - by rewrite (Sbp bp_sm), (Rbp bp_sm).
  - by rewrite (Sbp bp_md), (Rbp bp_md).
  - by rewrite (Sbp bp_lg), (Rbp bp_lg).
  - by rewrite (Sbp bp_xl), (Rbp bp_xl).
  - by rewrite (Sbp bp_2xl), (Rbp bp_2xl).
  - by rewrite Sm, Rm.
  - by rewrite St, Rt.
  - by rewrite Sd, Rd.
  - by rewrite Sp, Rp.
  - by rewrite Sl, Rl.
  - by rewrite Sdk, Rdk.
  - by rewrite Slt, Rlt.
Qed.

Lemma not_managed c :
  c ∉ managedClasses ↔
  (c ∉ reactiveClasses) ∧ c ≠ "touch-enabled" ∧ c ≠ "touch-disabled".
Proof.
  unfold managedClasses.
  rewrite not_elem_of_app, !not_elem_of_cons.
  pose proof (not_elem_of_nil c). tauto.
Qed.

(** Outside a browser the constructor subscribes to nothing, and the class
    list stays what it was. *)
Lemma classList_server evs e html :
  isPlatformBrowser e = false → classList (run evs (construct e html)) = html.
Proof.
  intros He. induction evs as [|ev evs IH] using rev_ind.
  - cbn [run foldl]. unfold construct. by rewrite He.
  - rewrite run_snoc. cbn [classList dispatch notify].
    by rewrite isPlatformBrowser_run, He.
Qed.

(** Which classes are on the root element, in a browser. *)
Lemma elem_of_classList_run c evs e html :
  isPlatformBrowser e = true →
  c ∈ classList (run evs (construct e html)) ↔
  c ∈ reactiveOn (env (run evs (construct e html))) ∨
  c ∈ staticOn e ∨
  ((c ∉ managedClasses) ∧ c ∈ html).
Proof.
  intros He. set (s := run evs (construct e html)).
  rewrite not_managed.
  destruct (decide (c ∈ reactiveClasses)) as [Hc|Hc].
  - assert (classesSynced s) as Hs.
    { apply reachable_classesSynced; [apply reachable_run|].
      subst s. by rewrite isPlatformBrowser_run. }
    rewrite (classesSynced_reactiveOn s c Hs Hc).
    split; [by left|]. intros [?|[Hst|[[] _]]]; [done| |done].
    by apply staticOn_static, static_not_reactive in Hst.
  - subst s. rewrite run_frame, classList_construct_frame by done.
    rewrite elem_of_applyStatic. split.
    + intros [?|(? & ? & ?)]; [by right; left|by right; right].
    + intros [Hr|[?|((_ & ? & ?) & ?)]]; [|by left|by right].
      by apply reactiveOn_reactive in Hr.
Qed.

(** X4.  In a browser, at every moment, the class list of the root element
    is: the one breakpoint class, the device classes, the one orientation
    class and the one colour scheme class that the current environment
    calls for; the platform, browser, os and touch class detected at
    construction; and the classes the element had before, except those of
    the breakpoint, device, orientation, colour scheme and touch
    families. *)
Theorem classList_characterised e html evs :
  isPlatformBrowser e = true →
  let s := run evs (construct e html) in
  classList s =
  list_to_set (reactiveOn (env s)) ∪ list_to_set (staticOn e) ∪
  (html ∖ list_to_set managedClasses).
Proof.
  intros He s. apply set_eq. intros c. subst s.
  rewrite elem_of_classList_run by done.
  rewrite !elem_of_union, elem_of_difference, !elem_of_list_to_set. tauto.
Qed.

Lemma classList_characterised_witness :
  let s := run [Resize 1300 700]
             (construct Examples.iphoneEnv {["bp-md"; "theme-dark"]}) in
  "bp-xl" ∈ classList s ∧ ("bp-md" ∉ classList s) ∧ "theme-dark" ∈ classList s.
Proof.
  cbn zeta.
  rewrite (classList_characterised Examples.iphoneEnv
             {["bp-md"; "theme-dark"]} [Resize 1300 700] eq_refl).
  split_and!; literal.
Defined.

(** X5.  Where [isPlatformBrowser] is false the service never writes to the
    root element: at every moment the class list is the one it found. *)
Theorem server_leaves_classList e html evs :
  isPlatformBrowser e = false →
  classList (run evs (construct e html)) = html.
Proof. apply classList_server. Qed.

Lemma server_leaves_classList_witness :
  classList
    (run [Resize 1920 1080; ColorSchemeChange true]
       (construct Examples.serverEnv {["theme-dark"]}))
  = {["theme-dark"]}.
Proof.
  exact (server_leaves_classList Examples.serverEnv {["theme-dark"]}
           [Resize 1920 1080; ColorSchemeChange true] eq_refl).
Defined.

(** X14.  Constructing the service again in the same environment, on the
    element the first construction left, changes no class. *)
Theorem construct_twice_same_classes e html :
  classList (construct e (classList (construct e html))) =
  classList (construct e html).
Proof.
  destruct (isPlatformBrowser e) eqn:He.
  - apply set_eq. intros c.
    pose proof (elem_of_classList_run c [] e html He) as H1.
    pose proof (elem_of_classList_run c [] e (classList (construct e html)) He)
      as H2.
    cbn [run foldl] in H1, H2. rewrite env_construct in H1, H2.
    rewrite H2, H1. tauto.
  - unfold construct. by rewrite He.
Qed.

(** X15.  In every environment, at every moment: a class outside the
    breakpoint, device, orientation, colour scheme and touch families that
    was on the root element is still there (so a platform, browser or os
    class found on the element is kept beside the detected one), and a
    class outside the whole vocabulary of the service is on the element
    exactly if it was there before. *)
Theorem unmanaged_classes_kept e html evs c :
  c ∉ managedClasses →
  let s := run evs (construct e html) in
  (c ∈ html → c ∈ classList s) ∧
  (c ∉ staticClasses → c ∈ classList s ↔ c ∈ html).
Proof.
  intros Hc s. subst s.
  destruct (isPlatformBrowser e) eqn:He.
  - rewrite elem_of_classList_run by done. split; [by right; right|].
    intros Hs. split; [|by right; right].
    intros [Hr|[Hst|[_ ?]]]; [| |done].
    + apply reactiveOn_reactive in Hr. by apply not_managed in Hc as [? _].
    + by apply staticOn_static in Hst.
  - by rewrite classList_server.
Qed.

Lemma unmanaged_classes_kept_witness :
  let s := run [Resize 1300 700]
             (construct Examples.iphoneEnv {["platform-desktop"]}) in
  "platform-desktop" ∈ classList s.
Proof.
  assert ("platform-desktop" ∉ managedClasses) as Hc by literal.
  destruct (unmanaged_classes_kept Examples.iphoneEnv {["platform-desktop"]}
              [Resize 1300 700] "platform-desktop" Hc) as [Hkept _].
  apply Hkept. by apply elem_of_singleton.
Defined.

End ClassList.

(** ** When a snapshot is produced *)

Section SnapshotLife.

Import ResponsiveService DOMTokenList.

Implicit Types (s : t) (e : Env) (html : gset string) (evs : list Event).

Lemma currentBreakpoint_firstMatching e :
  cdkIsBrowser e = true →
  currentBreakpoint_ e = firstMatching (viewportWidth e).
Proof.
  intros He. by rewrite firstMatching_unfold, currentBreakpoint_browser.
Qed.

Lemma currentBreakpoint_resize e w h :
  cdkIsBrowser e = true →
  currentBreakpoint_ (after (Resize w h) e) = firstMatching w.
Proof. intros He. by rewrite currentBreakpoint_firstMatching. Qed.

(** In a browser the signals of the minimum width queries are functions of
    the breakpoint. *)
Lemma width_signals_of_breakpoint e :
  cdkIsBrowser e = true →
  let bp := currentBreakpoint_ e in
  isSm_ e = bool_decide (1 ≤ rank bp)%nat ∧
  isMd_ e = bool_decide (2 ≤ rank bp)%nat ∧
  isLg_ e = bool_decide (3 ≤ rank bp)%nat ∧
  isXl_ e = bool_decide (4 ≤ rank bp)%nat ∧
  is2xl_ e = bool_decide (5 ≤ rank bp)%nat ∧
  isDesktop_ e = bool_decide (3 ≤ rank bp)%nat.
Proof.
  intros He bp. subst bp. rewrite currentBreakpoint_browser by done.
  unfold isSm_, isMd_, isLg_, isXl_, is2xl_, isDesktop_.
  rewrite !observe_matchMedia, !matchMedia_browser by done.
  change "(min-width: 1024px)" with TAILWIND_BREAKPOINTS.lg.
  rewrite window_sm, window_md, window_lg, window_xl, window_2xl.
  cbn zeta. set (w := viewportWidth e).
  destruct (Qle_bool_spec 1536 w); [split_and!; width_cases|].
  destruct (Qle_bool_spec 1280 w); [split_and!; width_cases|].
  destruct (Qle_bool_spec 1024 w); [split_and!; width_cases|].
  destruct (Qle_bool_spec 768 w); [split_and!; width_cases|].
  destruct (Qle_bool_spec 640 w); split_and!; width_cases.
Qed.

Lemma Qle_bool_same (a b c d : Q) :
  ((a <= b)%Q ↔ (c <= d)%Q) → Qle_bool a b = Qle_bool c d.
Proof.
  intros Hiff.
  destruct (Qle_bool_spec a b), (Qle_bool_spec c d);
    first [reflexivity | exfalso; lra | exfalso; intuition lra].
Qed.

Lemma deliver_same {A} `{EqDecision A} (v : A) f html :
  deliver v v f html = html.
Proof. unfold deliver. by rewrite decide_True. Qed.

(** X7.  In a browser, a resize that stays within the band of the current
    breakpoint produces no snapshot, whatever it does to the orientation:
    the orientation signals follow the new size while the orientation fields
    of the snapshot keep the values of the last change of breakpoint. *)
Theorem snapshot_kept_within_band e html evs w h :
  cdkIsBrowser e = true →
  let s := run evs (construct e html) in
  firstMatching w = firstMatching (viewportWidth (env s)) →
  let s' := dispatch (Resize w h) s in
  state s' = state s ∧
  isPortrait s' = Qle_bool w h ∧ isLandscape s' = negb (Qle_bool w h).
Proof.
  intros He s Hband s'.
  pose proof (cdkIsBrowser_run evs e html) as Hc. fold s in Hc.
  rewrite He in Hc.
  destruct (reachable_signalsCurrent s (reachable_run evs e html))
    as (_&_&_&_&_&_&_&_&_&_& Hbp).
  subst s'. cbn [state isPortrait isLandscape dispatch notify].
  rewrite Hbp, currentBreakpoint_resize, Hband by done.
  rewrite <- currentBreakpoint_firstMatching by done.
  rewrite decide_True by done. split; [done|].
  unfold isPortrait_, isLandscape_.
  rewrite !observe_matchMedia, !matchMedia_browser by (by destruct (env s)).
  by rewrite window_portrait, window_landscape.
Qed.

Lemma snapshot_kept_within_band_witness :
  let s := construct (Examples.browserEnv Examples.edgeUA 1400 900 false) ∅ in
  let s' := dispatch (Resize 1300 2000) s in
  isPortrait s' = true ∧ ResponsiveState.isPortrait (state s') = false.
Proof.
  destruct (snapshot_kept_within_band
              (Examples.browserEnv Examples.edgeUA 1400 900 false) ∅ []
              1300 2000 eq_refl eq_refl) as (Hst & Hp & _).
  unfold run in Hst, Hp. cbn [foldl] in Hst, Hp.
  cbn zeta. split; [by rewrite Hp|]. by rewrite Hst.
Defined.



(** X9.  In every environment, at every moment, the browser, the os and
    the touch flag of the service are those detected at construction: no
    notification changes them. *)
Theorem client_detection_constant e html evs :
  let s := run evs (construct e html) in
  browser s = detectBrowser e ∧ os s = detectOS e ∧
  ResponsiveState.isTouchEnabled (state s) =
    isPlatformBrowser e && detectTouch e ∧
  browser s = browser (construct e html) ∧ os s = os (construct e html).
Proof.
  intros s.
  assert (∀ evs',
    let s := run evs' (construct e html) in
    browser s = detectBrowser e ∧ os s = detectOS e ∧
    ResponsiveState.isTouchEnabled (state s) =
      isPlatformBrowser e && detectTouch e) as Hall.
  { intros evs' s'.
    destruct (reachable_snapshotCurrent s' (reachable_run evs' e html))
      as (_&_&_&_& Ht & _ & Hb & Ho).
    pose proof (sameClient_run evs' e html) as Hc. fold s' in Hc.
    unfold browser, os, readState.
    cbn [fmap option_fmap option_map default].
    rewrite Hb, Ho, Ht. cbn.
    rewrite (detectBrowser_sameClient _ _ Hc), (detectOS_sameClient _ _ Hc),
      (detectTouch_sameClient _ _ Hc).
    by destruct Hc as (-> & _). }
  destruct (Hall evs) as (Hb & Ho & Ht). destruct (Hall []) as (Hb0 & Ho0 & _).
  cbn [run foldl] in Hb0, Ho0. fold s in Hb, Ho, Ht.
  by rewrite Hb, Ho, Ht, Hb0, Ho0.
Qed.

(** X11.  In a browser, a resize that changes the result of none of the
    media queries of the service (the viewport stays in the band of its
    breakpoint, on the same side of the 767 and of the 1023 pixel limit of
    the mobile and tablet queries, and in its orientation) is invisible:
    the class list, the snapshot and all the signals stay as they were. *)
Theorem resize_within_band_invisible e html evs w h :
  cdkIsBrowser e = true →
  let s := run evs (construct e html) in
  let w0 := viewportWidth (env s) in
  let h0 := viewportHeight (env s) in
  firstMatching w = firstMatching w0 →
  ((w <= 767)%Q ↔ (w0 <= 767)%Q) →
  ((w <= 1023)%Q ↔ (w0 <= 1023)%Q) →
  ((w <= h)%Q ↔ (w0 <= h0)%Q) →
  let s' := dispatch (Resize w h) s in
  classList s' = classList s ∧ state s' = state s ∧
  currentBreakpoint s' = currentBreakpoint s ∧
  (isSm s' = isSm s ∧ isMd s' = isMd s ∧ isLg s' = isLg s ∧
   isXl s' = isXl s ∧ is2xl s' = is2xl s) ∧
  (isMobile s' = isMobile s ∧ isTablet s' = isTablet s ∧
   isDesktop s' = isDesktop s) ∧
  (isPortrait s' = isPortrait s ∧ isLandscape s' = isLandscape s).
Proof.
  intros He s w0 h0 Hband H767 H1023 Horient s'. subst w0 h0.
  pose proof (cdkIsBrowser_run evs e html) as Hc. fold s in Hc.
  rewrite He in Hc.
  assert (cdkIsBrowser (after (Resize w h) (env s)) = true) as Hc' by done.
  destruct (reachable_signalsCurrent s (reachable_run evs e html))
    as (Hsm & Hmd & Hlg & Hxl & H2xl & Hm & Ht & Hd & Hp & Hl & Hbp).
  assert (currentBreakpoint_ (after (Resize w h) (env s)) =
          currentBreakpoint_ (env s)) as Hsame.
  { by rewrite currentBreakpoint_resize, Hband,
      <- currentBreakpoint_firstMatching. }
  destruct (width_signals_of_breakpoint _ Hc)
    as (E1 & E2 & E3 & E4 & E5 & E8).
  destruct (width_signals_of_breakpoint _ Hc')
    as (F1 & F2 & F3 & F4 & F5 & F8).
  cbn zeta in E1, E2, E3, E4, E5, E8, F1, F2, F3, F4, F5, F8.
  rewrite Hsame in F1, F2, F3, F4, F5, F8.
  rewrite <- E1 in F1. rewrite <- E2 in F2. rewrite <- E3 in F3.
  rewrite <- E4 in F4. rewrite <- E5 in F5. rewrite <- E8 in F8.
  clear E1 E2 E3 E4 E5 E8.
  assert (isMobile_ (after (Resize w h) (env s)) = isMobile_ (env s)) as F6.
  { unfold isMobile_.
    rewrite !observe_matchMedia, !matchMedia_browser, !window_mobile by done.
    by apply Qle_bool_same. }
  assert (isTablet_ (after (Resize w h) (env s)) = isTablet_ (env s)) as F7.
  { revert F2. unfold isMd_, isTablet_.
    rewrite !observe_matchMedia, !matchMedia_browser by done.
    rewrite !window_md, !window_tablet. intros ->.
    f_equal. by apply Qle_bool_same. }
  assert (isPortrait_ (after (Resize w h) (env s)) = isPortrait_ (env s)
          ∧ isLandscape_ (after (Resize w h) (env s)) = isLandscape_ (env s))
    as [Fp Fl].
  { unfold isPortrait_, isLandscape_.
    rewrite !observe_matchMedia, !matchMedia_browser by done.
    rewrite !window_portrait, !window_landscape.
    cbn [after viewportWidth viewportHeight].
    by rewrite (Qle_bool_same _ _ _ _ Horient). }
  subst s'. cbn [classList state currentBreakpoint isSm isMd isLg isXl is2xl
    isMobile isTablet isDesktop isPortrait isLandscape dispatch notify].
  rewrite Hsm, Hmd, Hlg, Hxl, H2xl, Hm, Ht, Hd, Hp, Hl, Hbp, Hsame.
  rewrite F1, F2, F3, F4, F5, F6, F7, F8, Fp, Fl.
  rewrite !window_dark. cbn [after colorSchemeDark].
  rewrite !deliver_same, decide_True by reflexivity.
  split_and!; try reflexivity. by destruct (isPlatformBrowser (env s)).
Qed.

Lemma resize_within_band_invisible_witness :
  let s := construct (Examples.browserEnv Examples.edgeUA 1400 900 false) ∅ in
  classList (dispatch (Resize 1300.5 800) s) = classList s.
Proof.
  destruct (resize_within_band_invisible
              (Examples.browserEnv Examples.edgeUA 1400 900 false) ∅ []
              1300.5 800 eq_refl eq_refl) as [Hcl _].
  - change (viewportWidth _) with 1400%Q. lra.
  - change (viewportWidth _) with 1400%Q. lra.
  - change (viewportWidth _) with 1400%Q.
    change (viewportHeight _) with 900%Q. lra.
  - exact Hcl.
Defined.

(** Within the band sm and without a change of orientation, a resize from
    767 to 767.5 pixels is visible: the mobile signal and the mobile class
    go. *)
Example resize_into_gap_visible :
  let s := construct (Examples.browserEnv Examples.edgeUA 767 1024 false) ∅ in
  let s' := dispatch (Resize 767.5 1024) s in
  currentBreakpoint s' = currentBreakpoint s ∧
  isPortrait s' = isPortrait s ∧
  isMobile s = true ∧ isMobile s' = false ∧
  "mobile" ∈ classList s ∧ "mobile" ∉ classList s'.
Proof.
  cbn zeta. split_and!; try reflexivity;
    apply (bool_decide_unpack _); vm_compute; exact I.
Qed.

End SnapshotLife.

(** ** Late deliveries *)

Section Late.

Import ResponsiveService.

Implicit Types (s : t) (e : Env) (html : gset string).





End Late.
